(** * kerbrute: the probing session (session/session.go)

    A shallow embedding of [session.go]: the configuration templates and
    [buildKrb5Template], [NewKerbruteSession], [TestLogin], [TestUsername]
    and [DumpASRepHash].

    Go strings are byte strings; they are modelled by [string] (one [ascii]
    per byte).  A Go [error] is a value of the type [error] below, [nil]
    being [None].  A function that may panic returns a [result]. *)

From Stdlib Require Import String Ascii List ZArith Bool Lia Relations.
Import ListNotations.
Local Open Scope string_scope.

(** ** Go errors and panics *)

(** [messages.KRBError]: the fields the session inspects or prints. *)
Record messages_KRBError := mkKRBError {
  ErrorCode : Z;        (* int32 *)
  EText : string
}.

(** A non-nil Go [error].  The type assertion [err.(messages.KRBError)] of
    [TestUsername] succeeds on [KRBError] only; every other dynamic type
    (what [fmt.Errorf] builds, transport and ASN.1 errors of the library)
    is a [plainError], identified by its [Error()] text. *)
Inductive error :=
| KRBError (e : messages_KRBError)
| plainError (msg : string).

(** [fmt.Errorf] without a wrapping verb. *)
Definition fmt_Errorf (msg : string) : error := plainError msg.

(** The type assertion [e, ok := err.(messages.KRBError)]. *)
Definition as_KRBError (err : error) : option messages_KRBError :=
  match err with
  | KRBError e => Some e
  | plainError _ => None
  end.

(** [errorcode.KDC_ERR_PREAUTH_REQUIRED] (RFC 4120, section 7.5.9). *)
Definition KDC_ERR_PREAUTH_REQUIRED : Z := 25.

(** The outcome of a call that may panic. *)
Inductive result (A : Type) :=
| Ret (a : A)
| Panic (v : string).
Arguments Ret {A} a.
Arguments Panic {A} v.

(** ** html/template, as far as [buildKrb5Template] uses it

    [session.go] imports ["html/template"], whose [Execute] passes every
    action of a template through the contextual escaper.  Both templates
    consist of plain text and [{{.Field}}] actions, so every action is in
    the HTML text context and its value goes through [htmlEscaper], which
    replaces the bytes of [htmlReplacementTable] and copies all others
    (bytes of multi-byte runes are above the table and are copied). *)

Definition nl : string := String "010"%char EmptyString.
Definition tab : string := String "009"%char EmptyString.

(** The replacement of one byte ([htmlReplacementTable]); U+FFFD is the
    three bytes EF BF BD. *)
Definition htmlReplacement (c : ascii) : option string :=
  if Ascii.eqb c "000"%char then
    Some (String "239"%char (String "191"%char (String "189"%char EmptyString)))
  else if Ascii.eqb c "034"%char then Some "&#34;"            (* double quote *)
  else if Ascii.eqb c "&"%char then Some "&amp;"
  else if Ascii.eqb c "'"%char then Some "&#39;"
  else if Ascii.eqb c "+"%char then Some "&#43;"
  else if Ascii.eqb c "<"%char then Some "&lt;"
  else if Ascii.eqb c ">"%char then Some "&gt;"
  else None.

Fixpoint htmlEscaper (s : string) : string :=
  match s with
  | EmptyString => EmptyString
  | String c rest =>
      match htmlReplacement c with
      | Some repl => repl ++ htmlEscaper rest
      | None => String c (htmlEscaper rest)
      end
  end.

(** A plain string holds no byte of the replacement table. *)
Fixpoint plain (s : string) : Prop :=
  match s with
  | EmptyString => True
  | String c rest => htmlReplacement c = None /\ plain rest
  end.

(** A parsed template: text and field actions. *)
Inductive Node :=
| TextNode (text : string)
| FieldNode (ident : string).

(** [splitOn sep s]: the text before the first occurrence of [sep] and the
    text after it. *)
Fixpoint splitOn (sep s : string) : option (string * string) :=
  if String.prefix sep s then
    Some (EmptyString, String.substring (String.length sep)
                         (String.length s - String.length sep) s)
  else
    match s with
    | EmptyString => None
    | String c rest =>
        match splitOn sep rest with
        | Some (before, after) => Some (String c before, after)
        | None => None
        end
    end.

Definition textNode (s : string) : list Node :=
  match s with
  | EmptyString => []
  | _ => [TextNode s]
  end.

(** [Parse]: text up to ["{{"], then an action [.Ident] closed by ["}}"].
    Any other action, or an unclosed one, is a parse error. *)
Fixpoint parseN (fuel : nat) (s : string) : option (list Node) :=
  match fuel with
  | O => None
  | S fuel' =>
      match splitOn "{{" s with
      | None => Some (textNode s)
      | Some (text, rest) =>
          match splitOn "}}" rest with
          | None => None
          | Some (String dot ident, rest') =>
              if Ascii.eqb dot "."%char then
                match parseN fuel' rest' with
                | Some nodes =>
                    Some (textNode text ++ FieldNode ident :: nodes)%list
                | None => None
                end
              else None
          | Some (EmptyString, _) => None
          end
      end
  end.

Definition Parse (text : string) : option (list Node) :=
  parseN (S (String.length text)) text.

(** The data of [buildKrb5Template] is a [map[string]interface{}] holding
    strings. *)
Definition TemplateData := list (string * string).

Fixpoint lookup (key : string) (data : TemplateData) : option string :=
  match data with
  | [] => None
  | (k, v) :: rest => if String.eqb k key then Some v else lookup key rest
  end.

(** [Execute]: text is copied, a field is looked up in the map and
    escaped; a missing key prints as the escaped ["<no value>"].  With
    field actions over a map of strings there is no failing case. *)
Fixpoint Execute (nodes : list Node) (data : TemplateData) : string :=
  match nodes with
  | [] => EmptyString
  | TextNode text :: rest => text ++ Execute rest data
  | FieldNode ident :: rest =>
      match lookup ident data with
      | Some v => htmlEscaper v ++ Execute rest data
      | None => htmlEscaper "<no value>" ++ Execute rest data
      end
  end.

(** ** The configuration templates *)

Definition krb5ConfigTemplateDNS : string :=
  "[libdefaults]" ++ nl ++
  "dns_lookup_kdc = true" ++ nl ++
  "default_realm = {{.Realm}}" ++ nl.

Definition krb5ConfigTemplateKDC : string :=
  "[libdefaults]" ++ nl ++
  "default_realm = {{.Realm}}" ++ nl ++
  "[realms]" ++ nl ++
  "{{.Realm}} = {" ++ nl ++
  tab ++ "kdc = {{.DomainController}}" ++ nl ++
  tab ++ "admin_server = {{.DomainController}}" ++ nl ++
  "}" ++ nl.

(** The template [buildKrb5Template] selects. *)
Definition kTemplate (domainController : string) : string :=
  if String.eqb domainController "" then krb5ConfigTemplateDNS
  else krb5ConfigTemplateKDC.

Definition buildKrb5Template (realm domainController : string) : result string :=
  let data := [("Realm", realm); ("DomainController", domainController)] in
  match Parse (kTemplate domainController) with
  | None => Panic "template: krb5ConfigString: parse error"   (* template.Must *)
  | Some t => Ret (Execute t data)
  end.

(** [strings.Contains]. *)
Fixpoint Contains (s substr : string) : bool :=
  if String.prefix substr s then true
  else match s with
       | EmptyString => false
       | String _ rest => Contains rest substr
       end.

(** ** The collaborators of the session

    The Kerberos library (gokrb5), the operating system, the logger and
    the [util] package are outside [session.go].  They are taken as an
    interface: the types they own and the calls the session makes, each
    call with the shape of its Go signature.  A call that depends on the
    network, the clock or the file system reads and updates [ExtState],
    the state of everything outside the program. *)

Inductive ClientSetting :=
| DisablePAFXFAST (b : bool)
| AssumePreAuthentication (b : bool).

(** [LibDefaults] of [kconfig.Config]: the field the session assigns. *)
Record kconfig_LibDefaults := mkLibDefaults {
  DefaultTktEnctypeIDs : list Z      (* []int32 *)
}.

(** [kconfig.Config]: [LibDefaults] and the rest of the parsed
    configuration, which the session never reads. *)
Record kconfig_Config (Rest : Type) := mkConfig {
  LibDefaults : kconfig_LibDefaults;
  Config_rest : Rest
}.
Arguments mkConfig {Rest} _ _.
Arguments LibDefaults {Rest} _.
Arguments Config_rest {Rest} _.

(** The flags [NewKerbruteSession] opens the hash file with. *)
Inductive OpenFlag := O_APPEND | O_WRONLY | O_CREATE.

(** [map[int]string]; the session only stores it. *)
Definition KdcMap := list (Z * string).

Class Library := {
  ExtState : Type;
  ConfigRest : Type;
  util_Logger : Type;
  os_File : Type;
  kclient_Client : Type;
  types_PrincipalName : Type;
  messages_ASReq : Type;
  messages_ASRep : Type;

  strings_ToUpper : string -> string;
  KRBError_Error : messages_KRBError -> string;

  util_NewLogger : bool -> string -> util_Logger;
  util_ASRepToHashcat : messages_ASRep -> string * option error;

  os_OpenFile :
    string -> list OpenFlag -> Z -> ExtState -> (os_File + error) * ExtState;
  File_Name : os_File -> string;
  File_WriteString :
    os_File -> string -> ExtState -> (Z * option error) * ExtState;

  kconfig_NewFromString : string -> kconfig_Config ConfigRest + error;
  Config_EnableSocks5 :
    kconfig_Config ConfigRest -> string -> string -> string ->
    kconfig_Config ConfigRest;
  Config_WithContext : kconfig_Config ConfigRest -> kconfig_Config ConfigRest;
  Config_GetKDCs :
    kconfig_Config ConfigRest -> string -> bool -> ExtState ->
    (Z * KdcMap * option error) * ExtState;

  kclient_NewWithPassword :
    string -> string -> string -> kconfig_Config ConfigRest ->
    list ClientSetting -> kclient_Client;
  Client_Destroy : kclient_Client -> ExtState -> ExtState;
  Client_IsConfigured : kclient_Client -> bool * option error;
  Client_Login : kclient_Client -> ExtState -> option error * ExtState;
  Client_SendToKDC :
    kclient_Client -> string -> string -> ExtState ->
    (string * option error) * ExtState;
  Client_Config : kclient_Client -> kconfig_Config ConfigRest;
  Credentials_Domain : kclient_Client -> string;
  Credentials_CName : kclient_Client -> types_PrincipalName;

  messages_NewASReqForTGT :
    string -> kconfig_Config ConfigRest -> types_PrincipalName -> ExtState ->
    (messages_ASReq * option error) * ExtState;
  ASReq_Marshal : messages_ASReq -> string * option error;
  ASRep_Unmarshal : string -> messages_ASRep * option error;
  ASRep_CName_PrincipalNameString : messages_ASRep -> string
}.

Inductive Level := DEBUG | INFO | NOTICE | WARNING | ERROR.

Section Session.

Context {L : Library}.

Definition ConfigT := kconfig_Config ConfigRest.

(** [err.Error()]. *)
Definition Error (err : error) : string :=
  match err with
  | KRBError e => KRBError_Error e
  | plainError msg => msg
  end.

(** ** The world the session acts on

    Besides [ExtState], the world records what the session itself emits:
    the log calls (level and rendered message), the format strings given
    to [fmt.Printf], the payloads given to [WriteString] on a hash file
    (the hash sink), and the requests handed to [SendToKDC].  Whether
    the operating system stored a payload is its answer to the call, an
    error or none. *)
Record World := mkWorld {
  ext : ExtState;
  log : list (Level * string);
  stdout : list string;
  sink : list (os_File * string);
  kdc_sent : list (string * string)
}.

Definition set_ext (w : World) (e : ExtState) : World :=
  mkWorld e (log w) (stdout w) (sink w) (kdc_sent w).

(** A computation on the world that returns or panics. *)
Definition M (A : Type) : Type := World -> result (A * World).

Definition ret {A : Type} (a : A) : M A := fun w => Ret (a, w).

Definition bind {A B : Type} (m : M A) (f : A -> M B) : M B :=
  fun w =>
    match m w with
    | Ret (a, w') => f a w'
    | Panic v => Panic v
    end.

Definition panic {A : Type} (v : string) : M A := fun _ => Panic v.

Definition lift_result {A : Type} (r : result A) : M A :=
  fun w =>
    match r with
    | Ret a => Ret (a, w)
    | Panic v => Panic v
    end.

(** A call into the outside world. *)
Definition call {A : Type} (f : ExtState -> A * ExtState) : M A :=
  fun w => let (a, e) := f (ext w) in Ret (a, set_ext w e).

(** [defer d] around a body that returns. *)
Definition defer {A : Type} (d : ExtState -> ExtState) (body : M A) : M A :=
  fun w =>
    match body w with
    | Ret (a, w') => Ret (a, set_ext w' (d (ext w')))
    | Panic v => Panic v
    end.

Definition logf (lvl : Level) (msg : string) : M unit :=
  fun w => Ret (tt, mkWorld (ext w) (log w ++ [(lvl, msg)]) (stdout w)
                           (sink w) (kdc_sent w)).

Definition fmt_Printf (format : string) : M unit :=
  fun w => Ret (tt, mkWorld (ext w) (log w) (stdout w ++ [format])
                           (sink w) (kdc_sent w)).

(** [f.WriteString(s)] on a hash file. *)
Definition WriteString (f : os_File) (s : string) : M (Z * option error) :=
  fun w =>
    let (r, e) := File_WriteString f s (ext w) in
    Ret (r, mkWorld e (log w) (stdout w) (sink w ++ [(f, s)]) (kdc_sent w)).

(** [cl.SendToKDC(b, realm)]. *)
Definition SendToKDC (cl : kclient_Client) (b realm : string)
    : M (string * option error) :=
  fun w =>
    let (r, e) := Client_SendToKDC cl b realm (ext w) in
    Ret (r, mkWorld e (log w) (stdout w) (sink w) (kdc_sent w ++ [(b, realm)])).

End Session.

Declare Scope session_scope.
Delimit Scope session_scope with session.
Notation "x <- m ;; k" := (bind m (fun x => k))
  (at level 61, m at next level, right associativity) : session_scope.
Notation "m ;;; k" := (bind m (fun _ => k))
  (at level 61, right associativity) : session_scope.
Local Open Scope session_scope.

Section SessionOps.

Context {L : Library}.

(** ** The session *)

Record KerbruteSession := mkSession {
  Domain : string;
  Realm : string;
  Kdcs : KdcMap;
  ConfigString : string;
  Config : ConfigT;                    (* non-nil once assembled *)
  Verbose : bool;
  SafeMode : bool;
  HashFile : option os_File;           (* nil when no sink is configured *)
  Logger : util_Logger                 (* non-nil once assembled *)
}.

Record KerbruteSessionOptions := mkOptions {
  o_Domain : string;
  o_DomainController : string;
  o_Verbose : bool;
  o_SafeMode : bool;
  o_Downgrade : bool;
  o_HashFilename : string;
  o_Socks5Proxy : string;
  o_Socks5Username : string;
  o_Socks5Password : string;
  o_logger : option util_Logger
}.

(** The log lines of the SOCKS5 branch (lines 89 to 98). *)
Definition logSocks5 (options : KerbruteSessionOptions) : M unit :=
  logf INFO ("Using SOCKS5 proxy: " ++ o_Socks5Proxy options) ;;;
  if negb (String.eqb (o_Socks5Username options) "") then
    if negb (String.eqb (o_Socks5Password options) "") then
      logf INFO ("Using SOCKS5 proxy authentication with username: "
                 ++ o_Socks5Username options)
    else
      logf INFO ("Using SOCKS5 proxy with username: "
                 ++ o_Socks5Username options ++ " but no password")
  else ret tt.

(** The assignment [cfg.LibDefaults.DefaultTktEnctypeIDs = ids]. *)
Definition set_DefaultTktEnctypeIDs (cfg : ConfigT) (ids : list Z) : ConfigT :=
  mkConfig (mkLibDefaults ids) (Config_rest cfg).

(** The second half of [NewKerbruteSession], from line 79 on: the hash
    file, if any, is open and the logger chosen. *)
Definition assemble (options : KerbruteSessionOptions) (logger : util_Logger)
    (hashFile : option os_File) : M (option KerbruteSession * option error) :=
  let realm := strings_ToUpper (o_Domain options) in
  configstring <- lift_result
    (buildKrb5Template realm (o_DomainController options)) ;;
  match kconfig_NewFromString configstring with
  | inr err => panic (Error err)
  | inl Config0 =>
      Config1 <-
        (if negb (String.eqb (o_Socks5Proxy options) "") then
           let enabled :=
             Config_EnableSocks5 Config0 (o_Socks5Proxy options)
               (o_Socks5Username options) (o_Socks5Password options) in
           logSocks5 options ;;;
           ret enabled
         else ret Config0) ;;
      let configWithContext0 := Config_WithContext Config1 in
      configWithContext <-
        (if o_Downgrade options then
           let downgraded :=
             set_DefaultTktEnctypeIDs configWithContext0 [23%Z] in
           logf INFO "Using downgraded encryption: arcfour-hmac-md5" ;;;
           ret downgraded
         else ret configWithContext0) ;;
      r <- call (Config_GetKDCs configWithContext realm false) ;;
      let '(_, kdcs, err) := r in
      let err :=
        match err with
        | Some _ =>
            Some (fmt_Errorf ("Couldn't find any KDCs for realm " ++ realm
                              ++ ". Please specify a Domain Controller"))
        | None => None
        end in
      let k := mkSession (o_Domain options) realm kdcs configstring
                 configWithContext (o_Verbose options) (o_SafeMode options)
                 hashFile logger in
      ret (Some k, err)
  end.

(** [NewKerbruteSession].  The named result [k] is the zero
    [KerbruteSession{}] until it is assigned at line 116; the zero value
    is [None], an assembled session is [Some]. *)
Definition NewKerbruteSession (options : KerbruteSessionOptions)
    : M (option KerbruteSession * option error) :=
  if String.eqb (o_Domain options) "" then
    ret (None, Some (fmt_Errorf "domain must not be empty"))
  else
    let logger :=
      match o_logger options with
      | None => util_NewLogger (o_Verbose options) ""
      | Some lg => lg
      end in
    if negb (String.eqb (o_HashFilename options) "") then
      r <- call (os_OpenFile (o_HashFilename options)
                   [O_APPEND; O_WRONLY; O_CREATE] 420%Z) ;;        (* 0644 *)
      match r with
      | inr err => ret (None, Some err)
      | inl hashFile =>
          logf INFO ("Saving any captured hashes to " ++ File_Name hashFile) ;;;
          (if negb (o_Downgrade options) then
             logf WARNING "You are capturing AS-REPs, but not downgrading encryption. You probably want to downgrade to arcfour-hmac-md5 (--downgrade) to crack them with a user's password instead of AES keys"
           else ret tt) ;;;
          assemble options logger (Some hashFile)
      end
    else assemble options logger None.

(** ** The probes *)

(** Modelled from the spec: [TestLoginError] is a method of this package
    that [session.go] calls and does not define.  Section 4.3 gives its
    result for a failed login: "Result false, err: the underlying
    Kerberos error is classified (see section 7) and returned".  The error
    keeps its dynamic type, which is its class. *)
Definition TestLoginError (k : KerbruteSession) (err : error)
    : M (bool * option error) :=
  ret (false, Some err).

Definition TestLogin (k : KerbruteSession) (username password : string)
    : M (bool * option error) :=
  let Client := kclient_NewWithPassword username (Realm k) password (Config k)
                   [DisablePAFXFAST true; AssumePreAuthentication true] in
  defer (Client_Destroy Client)
    (let (ok, err) := Client_IsConfigured Client in
     if negb ok then ret (false, err)
     else
       err <- call (Client_Login Client) ;;
       match err with
       | None => ret (true, None)
       | Some e => TestLoginError k e
       end).

Definition DumpASRepHash (k : KerbruteSession) (asrep : messages_ASRep)
    : M unit :=
  let (hash, err) := util_ASRepToHashcat asrep in
  match err with
  | Some e =>
      logf DEBUG ("[!] Got encrypted TGT for "
                  ++ ASRep_CName_PrincipalNameString asrep
                  ++ ", but couldn't convert to hash: " ++ Error e)
  | None =>
      logf NOTICE ("[+] " ++ ASRep_CName_PrincipalNameString asrep
                   ++ " has no pre auth required. Dumping hash to crack offline:"
                   ++ nl ++ hash) ;;;
      match HashFile k with
      | Some f =>
          r <- WriteString f (hash ++ nl) ;;
          match snd r with
          | Some e => logf ERROR ("[!] Error writing hash to file: " ++ Error e)
          | None => ret tt
          end
      | None => ret tt
      end
  end.

Definition TestUsername (k : KerbruteSession) (username : string)
    : M (bool * option error) :=
  let cl := kclient_NewWithPassword username (Realm k) "foobar" (Config k)
              [DisablePAFXFAST true] in
  r <- call (messages_NewASReqForTGT (Credentials_Domain cl) (Client_Config cl)
               (Credentials_CName cl)) ;;
  let (req, err) := r in
  (match err with
   | Some e => fmt_Printf (Error e)
   | None => ret tt
   end) ;;;
  let (b, err) := ASReq_Marshal req in
  match err with
  | Some e => ret (false, Some e)
  | None =>
      r <- SendToKDC cl b (Realm k) ;;
      let (rb, err) := r in
      match err with
      | None =>
          let (ASRep, err) := ASRep_Unmarshal rb in
          match err with
          | Some e => ret (false, Some e)
          | None => DumpASRepHash k ASRep ;;; ret (true, None)
          end
      | Some err =>
          match as_KRBError err with
          | None => ret (false, Some err)
          | Some e =>
              if Z.eqb (ErrorCode e) KDC_ERR_PREAUTH_REQUIRED
              then ret (true, None)
              else ret (false, Some err)
          end
      end
  end.

(** ** A run of probes on a session

    The three methods have value receivers: each call works on a copy of
    the session, so the caller's session after a call is the one it had
    before, whatever happened to the world. *)
Inductive Call :=
| CallTestLogin (username password : string)
| CallTestUsername (username : string)
| CallDumpASRepHash (asrep : messages_ASRep).

Definition exec (k : KerbruteSession) (c : Call) : M unit :=
  match c with
  | CallTestLogin u p => TestLogin k u p ;;; ret tt
  | CallTestUsername u => TestUsername k u ;;; ret tt
  | CallDumpASRepHash a => DumpASRepHash k a
  end.

(** What [DumpASRepHash k asrep] hands to the hash sink: the hash and a
    newline when the conversion succeeds and a sink is configured. *)
Definition exported (k : KerbruteSession) (asrep : messages_ASRep)
    : list (os_File * string) :=
  match util_ASRepToHashcat asrep, HashFile k with
  | (hash, None), Some f => [(f, hash ++ nl)]
  | _, _ => []
  end.

(** The reply of the KDC to the request [TestUsername k username] makes in
    world [w]: what [SendToKDC] returns there.  [None] when the request
    does not marshal, so that nothing is sent. *)
Definition kdc_reply (k : KerbruteSession) (username : string) (w : World)
    : option (string * option error) :=
  let cl := kclient_NewWithPassword username (Realm k) "foobar" (Config k)
              [DisablePAFXFAST true] in
  let '((req, _), e) :=
    messages_NewASReqForTGT (Credentials_Domain cl) (Client_Config cl)
      (Credentials_CName cl) (ext w) in
  let (b, err) := ASReq_Marshal req in
  match err with
  | Some _ => None
  | None => Some (fst (Client_SendToKDC cl b (Realm k) e))
  end.

Inductive step : KerbruteSession * World -> KerbruteSession * World -> Prop :=
| step_call (k : KerbruteSession) (w w' : World) (c : Call) :
    exec k c w = Ret (tt, w') -> step (k, w) (k, w').

Definition reachable := clos_refl_trans (KerbruteSession * World) step.

End SessionOps.

(** ** A test double for the collaborators

    A small realm [EXAMPLE.COM] with a fixed population, used to run the
    session on concrete inputs:
    - [alice] requires pre-authentication and has password [hunter2];
    - [bob] and [carol] do not require pre-authentication; the reply for
      [carol] uses an encryption type with no hash encoding;
    - any other principal is unknown to the KDC (error code 6);
    - the user name [timeout] never reaches the KDC, the reply for
      [garbage] is not a Kerberos message, a user name holding a NUL
      byte gives a request that does not marshal, and building the request
      for the empty user name reports an error;
    - the file [/dev/full] opens and refuses every write, nothing opens
      under [/nonexistent/];
    - KDCs are found for the realm [EXAMPLE.COM] only. *)
Module Mock.

Definition upper (c : ascii) : ascii :=
  let n := nat_of_ascii c in
  if andb (Nat.leb 97 n) (Nat.leb n 122) then ascii_of_nat (n - 32) else c.

Fixpoint ToUpper (s : string) : string :=
  match s with
  | EmptyString => EmptyString
  | String c rest => String (upper c) (ToUpper rest)
  end.

Definition NUL : string := String "000"%char EmptyString.

Definition KDC_ERR_C_PRINCIPAL_UNKNOWN : Z := 6.
Definition KDC_ERR_PREAUTH_FAILED : Z := 24.

Definition unknown : error :=
  KRBError (mkKRBError KDC_ERR_C_PRINCIPAL_UNKNOWN "client not found").
Definition preauth_required : error :=
  KRBError (mkKRBError KDC_ERR_PREAUTH_REQUIRED "preauth required").
Definition preauth_failed : error :=
  KRBError (mkKRBError KDC_ERR_PREAUTH_FAILED "preauth failed").

Definition MockClient : Type := string * string * kconfig_Config string.

Definition SendToKDC (cl : MockClient) (b realm : string) (x : nat)
    : (string * option error) * nat :=
  (if String.eqb b "alice" then ("", Some preauth_required)
   else if String.eqb b "bob" then ("asrep:bob", None)
   else if String.eqb b "carol" then ("asrep:carol", None)
   else if String.eqb b "garbage" then ("garbage", None)
   else if String.eqb b "timeout" then
     ("", Some (plainError "communication error with KDC via TCP: i/o timeout"))
   else ("", Some unknown),
   S x).

Definition Unmarshal (rb : string) : string * option error :=
  if String.prefix "asrep:" rb then (String.substring 6 (String.length rb - 6) rb, None)
  else ("", Some (plainError "asn1: structure error: tags don't match")).

Definition ASRepToHashcat (asrep : string) : string * option error :=
  if String.eqb asrep "bob" then ("$krb5asrep$23$bob@EXAMPLE.COM:0a1b$2c3d", None)
  else ("", Some (plainError "unsupported encryption type")).

Definition OpenFile (name : string) (flags : list OpenFlag) (perm : Z)
    (x : nat) : (string + error) * nat :=
  (if String.prefix "/nonexistent/" name
   then inr (plainError ("open " ++ name ++ ": no such file or directory"))
   else inl name,
   S x).

Definition WriteString (f s : string) (x : nat) : (Z * option error) * nat :=
  (if String.eqb f "/dev/full"
   then (0%Z, Some (plainError "write /dev/full: no space left on device"))
   else (Z.of_nat (String.length s), None),
   S x).

Definition GetKDCs (cfg : kconfig_Config string) (realm : string) (tcp : bool)
    (x : nat) : (Z * KdcMap * option error) * nat :=
  (if String.eqb realm "EXAMPLE.COM"
   then (1%Z, [(1%Z, "dc1.example.com:88")], None)
   else (0%Z, [], Some (plainError ("no KDC SRV records found for realm " ++ realm))),
   S x).

Definition IsConfigured (cl : MockClient) : bool * option error :=
  if String.eqb (fst (fst cl)) "" then (false, Some (plainError "client does not have a username"))
  else (true, None).

Definition Login (cl : MockClient) (x : nat) : option error * nat :=
  (if String.eqb (fst (fst cl)) "alice" then
     if String.eqb (snd (fst cl)) "hunter2" then None else Some preauth_failed
   else Some unknown,
   S x).

Definition Marshal (req : string) : string * option error :=
  if Contains req NUL then ("", Some (plainError "error marshaling AS_REQ"))
  else (req, None).

Definition NewASReqForTGT (domain : string) (cfg : kconfig_Config string)
    (cname : string) (x : nat) : (string * option error) * nat :=
  (if String.eqb cname "" then (cname, Some (plainError "empty principal name"))
   else (cname, None),
   S x).

Definition lib : Library := {|
  ExtState := nat;
  ConfigRest := string;
  util_Logger := bool;
  os_File := string;
  kclient_Client := MockClient;
  types_PrincipalName := string;
  messages_ASReq := string;
  messages_ASRep := string;
  strings_ToUpper := ToUpper;
  KRBError_Error := fun e => "KRB Error: " ++ EText e;
  util_NewLogger := fun verbose _ => verbose;
  util_ASRepToHashcat := ASRepToHashcat;
  os_OpenFile := OpenFile;
  File_Name := fun f => f;
  File_WriteString := WriteString;
  kconfig_NewFromString :=
    fun s => inl (mkConfig (mkLibDefaults [18; 17; 23]%Z) s);
  Config_EnableSocks5 := fun cfg _ _ _ => cfg;
  Config_WithContext := fun cfg => cfg;
  Config_GetKDCs := GetKDCs;
  kclient_NewWithPassword :=
    fun username realm password cfg _ => (username, password, cfg);
  Client_Destroy := fun _ x => S x;
  Client_IsConfigured := IsConfigured;
  Client_Login := Login;
  Client_SendToKDC := SendToKDC;
  Client_Config := fun cl => snd cl;
  Credentials_Domain := fun _ => "EXAMPLE.COM";
  Credentials_CName := fun cl => fst (fst cl);
  messages_NewASReqForTGT := NewASReqForTGT;
  ASReq_Marshal := Marshal;
  ASRep_Unmarshal := Unmarshal;
  ASRep_CName_PrincipalNameString := fun a => a
|}.

Definition hashes : string := "/tmp/hashes".
Definition bob_hash : string := "$krb5asrep$23$bob@EXAMPLE.COM:0a1b$2c3d".

(** The world before anything has happened. *)
Definition w0 : @World lib := @mkWorld lib 0 [] [] [] [].

Definition options (domain dc hashFilename : string) (downgrade : bool)
    : @KerbruteSessionOptions lib :=
  @mkOptions lib domain dc false false downgrade hashFilename "" "" "" None.

(** A session on [EXAMPLE.COM], with or without a hash file. *)
Definition session (hashFile : option string) : @KerbruteSession lib :=
  @mkSession lib "example.com" "EXAMPLE.COM" [(1%Z, "dc1.example.com:88")]
    "" (mkConfig (mkLibDefaults [23%Z]) "") false false hashFile false.

End Mock.

(** ** Vocabulary for the construction of a session *)

Section Construction.

Context {L : Library}.

(** The options with another SOCKS5 password. *)
Definition with_Socks5Password (options : KerbruteSessionOptions)
    (password : string) : KerbruteSessionOptions :=
  mkOptions (o_Domain options) (o_DomainController options)
    (o_Verbose options) (o_SafeMode options) (o_Downgrade options)
    (o_HashFilename options) (o_Socks5Proxy options)
    (o_Socks5Username options) password (o_logger options).

(** The configuration [NewKerbruteSession] stores, from the parsed one:
    proxy first, then the context, then the downgrade. *)
Definition final_config (options : KerbruteSessionOptions) (Config0 : ConfigT)
    : ConfigT :=
  let Config1 :=
    if negb (String.eqb (o_Socks5Proxy options) "")
    then Config_EnableSocks5 Config0 (o_Socks5Proxy options)
           (o_Socks5Username options) (o_Socks5Password options)
    else Config0 in
  let configWithContext := Config_WithContext Config1 in
  if o_Downgrade options
  then set_DefaultTktEnctypeIDs configWithContext [23%Z]
  else configWithContext.

(** The log entries of the three logging places of [NewKerbruteSession]:
    after the hash file is open, in the proxy branch, in the downgrade
    branch. *)
Definition hashfile_log (options : KerbruteSessionOptions) (f : os_File)
    : list (Level * string) :=
  (INFO, "Saving any captured hashes to " ++ File_Name f)
  :: (if negb (o_Downgrade options)
      then [(WARNING, "You are capturing AS-REPs, but not downgrading encryption. You probably want to downgrade to arcfour-hmac-md5 (--downgrade) to crack them with a user's password instead of AES keys")]
      else []).

Definition socks5_log (options : KerbruteSessionOptions)
    : list (Level * string) :=
  if negb (String.eqb (o_Socks5Proxy options) "") then
    (INFO, "Using SOCKS5 proxy: " ++ o_Socks5Proxy options)
    :: (if negb (String.eqb (o_Socks5Username options) "") then
          if negb (String.eqb (o_Socks5Password options) "") then
            [(INFO, "Using SOCKS5 proxy authentication with username: "
                    ++ o_Socks5Username options)]
          else
            [(INFO, "Using SOCKS5 proxy with username: "
                    ++ o_Socks5Username options ++ " but no password")]
        else [])
  else [].

Definition downgrade_log (options : KerbruteSessionOptions)
    : list (Level * string) :=
  if o_Downgrade options
  then [(INFO, "Using downgraded encryption: arcfour-hmac-md5")]
  else [].

(** The answer of [os.OpenFile] for the hash file in world [w]. *)
Definition opened (options : KerbruteSessionOptions) (w : World)
    : (os_File + error) * ExtState :=
  os_OpenFile (o_HashFilename options) [O_APPEND; O_WRONLY; O_CREATE] 420%Z
    (ext w).

(** Everything a returning [NewKerbruteSession] logs. *)
Definition construction_log (options : KerbruteSessionOptions) (w : World)
    : list (Level * string) :=
  if String.eqb (o_Domain options) "" then []
  else if negb (String.eqb (o_HashFilename options) "") then
    match fst (opened options w) with
    | inl f =>
        (hashfile_log options f ++ socks5_log options ++ downgrade_log options)%list
    | inr _ => []
    end
  else (socks5_log options ++ downgrade_log options)%list.

(** The state of the outside when [NewKerbruteSession] looks for KDCs. *)
Definition lookup_state (options : KerbruteSessionOptions) (w : World)
    : ExtState :=
  if String.eqb (o_HashFilename options) "" then ext w
  else snd (opened options w).

(** The logger of the session: the one of the options, or a new one. *)
Definition chosen_logger (options : KerbruteSessionOptions) : util_Logger :=
  match o_logger options with
  | None => util_NewLogger (o_Verbose options) ""
  | Some lg => lg
  end.

End Construction.

(** ** Vocabulary for the user name probe *)

Section ProbeEnds.

Context {L : Library}.

(** The ways a run of [TestUsername] ends: the request did not marshal;
    the KDC asked for pre-authentication; the exchange gave another
    error; the reply did not unmarshal; the reply was an AS-REP, given to
    [DumpASRepHash].  Each with the result and what the world keeps. *)
Inductive probe_end (k : KerbruteSession) (username : string) (w : World)
    : bool * option error -> World -> Prop :=
| end_unsent (em : error) (w' : World) :
    kdc_reply k username w = None ->
    sink w' = sink w -> log w' = log w -> kdc_sent w' = kdc_sent w ->
    probe_end k username w (false, Some em) w'
| end_preauth (rb : string) (e : messages_KRBError) (b : string) (w' : World) :
    kdc_reply k username w = Some (rb, Some (KRBError e)) ->
    ErrorCode e = KDC_ERR_PREAUTH_REQUIRED ->
    sink w' = sink w -> log w' = log w ->
    kdc_sent w' = (kdc_sent w ++ [(b, Realm k)])%list ->
    probe_end k username w (true, None) w'
| end_error (rb : string) (err : error) (b : string) (w' : World) :
    kdc_reply k username w = Some (rb, Some err) ->
    (forall e, err = KRBError e -> ErrorCode e <> KDC_ERR_PREAUTH_REQUIRED) ->
    sink w' = sink w -> log w' = log w ->
    kdc_sent w' = (kdc_sent w ++ [(b, Realm k)])%list ->
    probe_end k username w (false, Some err) w'
| end_unparsed (rb : string) (err : error) (b : string) (w' : World) :
    kdc_reply k username w = Some (rb, None) ->
    snd (ASRep_Unmarshal rb) = Some err ->
    sink w' = sink w -> log w' = log w ->
    kdc_sent w' = (kdc_sent w ++ [(b, Realm k)])%list ->
    probe_end k username w (false, Some err) w'
| end_asrep (rb : string) (asrep : messages_ASRep) (b : string) (w1 w' : World) :
    kdc_reply k username w = Some (rb, None) ->
    ASRep_Unmarshal rb = (asrep, None) ->
    sink w1 = sink w -> log w1 = log w ->
    DumpASRepHash k asrep w1 = Ret (tt, w') ->
    sink w' = (sink w ++ exported k asrep)%list ->
    kdc_sent w' = (kdc_sent w ++ [(b, Realm k)])%list ->
    probe_end k username w (true, None) w'.

End ProbeEnds.

(** ** Bytes of a rendered text *)

(** The bytes [htmlEscaper] never lets through. *)
Definition escaped_away (c : ascii) : bool :=
  Ascii.eqb c "000"%char || Ascii.eqb c "034"%char || Ascii.eqb c "'"%char
  || Ascii.eqb c "+"%char || Ascii.eqb c "<"%char || Ascii.eqb c ">"%char.

Fixpoint all_bytes (p : ascii -> bool) (s : string) : bool :=
  match s with
  | EmptyString => true
  | String c rest => p c && all_bytes p rest
  end.

(** ** A second test double

    The collaborators of [Mock], except that the configuration parser
    refuses a text with an ampersand, the proxy and the context leave a
    mark in the configuration, and the state of the outside is the list of
    the calls made. *)
Module Strict.

Definition NewFromString (s : string) : kconfig_Config string + error :=
  if Contains s "&" then inr (plainError "invalid krb5 config")
  else inl (mkConfig (mkLibDefaults [18; 17; 23]%Z) s).

Definition EnableSocks5 (cfg : kconfig_Config string)
    (proxy username password : string) : kconfig_Config string :=
  mkConfig (LibDefaults cfg)
    (Config_rest cfg ++ "socks5 = " ++ username ++ ":" ++ password ++ "@"
     ++ proxy ++ nl).

Definition WithContext (cfg : kconfig_Config string) : kconfig_Config string :=
  mkConfig (LibDefaults cfg) (Config_rest cfg ++ "context = background" ++ nl).

Definition lib : Library := {|
  ExtState := nat;
  ConfigRest := string;
  util_Logger := bool;
  os_File := string;
  kclient_Client := Mock.MockClient;
  types_PrincipalName := string;
  messages_ASReq := string;
  messages_ASRep := string;
  strings_ToUpper := Mock.ToUpper;
  KRBError_Error := fun e => "KRB Error: " ++ EText e;
  util_NewLogger := fun verbose _ => verbose;
  util_ASRepToHashcat := Mock.ASRepToHashcat;
  os_OpenFile := Mock.OpenFile;
  File_Name := fun f => f;
  File_WriteString := Mock.WriteString;
  kconfig_NewFromString := NewFromString;
  Config_EnableSocks5 := EnableSocks5;
  Config_WithContext := WithContext;
  Config_GetKDCs := Mock.GetKDCs;
  kclient_NewWithPassword :=
    fun username realm password cfg _ => (username, password, cfg);
  Client_Destroy := fun _ x => (x + 100)%nat;
  Client_IsConfigured := Mock.IsConfigured;
  Client_Login := Mock.Login;
  Client_SendToKDC := Mock.SendToKDC;
  Client_Config := fun cl => snd cl;
  Credentials_Domain := fun _ => "EXAMPLE.COM";
  Credentials_CName := fun cl => fst (fst cl);
  messages_NewASReqForTGT := Mock.NewASReqForTGT;
  ASReq_Marshal := Mock.Marshal;
  ASRep_Unmarshal := Mock.Unmarshal;
  ASRep_CName_PrincipalNameString := fun a => a
|}.

Definition w0 : @World lib := @mkWorld lib 0 [] [] [] [].

(** Options with a proxy. *)
Definition options (domain hashFilename password : string) (downgrade : bool)
    : @KerbruteSessionOptions lib :=
  @mkOptions lib domain "" true true downgrade hashFilename
    "127.0.0.1:1080" "proxyuser" password None.

Definition session (hashFile : option string) (kdcs : KdcMap) (safeMode : bool)
    : @KerbruteSession lib :=
  @mkSession lib "example.com" "EXAMPLE.COM" kdcs
    "" (mkConfig (mkLibDefaults [23%Z]) "") false safeMode hashFile false.

End Strict.

(** ** Inputs for the test doubles *)
Module Cases.

(** A hash file, no downgrade, an explicit domain controller. *)
Definition with_file : @KerbruteSessionOptions Mock.lib :=
  Mock.options "example.com" "dc1.example.com" Mock.hashes false.

(** A hash file and the downgrade, KDCs found by DNS. *)
Definition downgraded : @KerbruteSessionOptions Mock.lib :=
  Mock.options "example.com" "" Mock.hashes true.

(** A hash file under a directory that does not exist. *)
Definition no_directory : @KerbruteSessionOptions Mock.lib :=
  Mock.options "example.com" "" "/nonexistent/hashes" false.

(** Behind a proxy, downgraded, with or without a hash file. *)
Definition proxied (hashFilename : string) : @KerbruteSessionOptions Strict.lib :=
  Strict.options "example.com" hashFilename "secret" true.

(** A realm with an ampersand. *)
Definition ampersand : @KerbruteSessionOptions Strict.lib :=
  Strict.options "r&d.example.com" "" "secret" false.

(** A session without a sink, and one with. *)
Definition plain_session : @KerbruteSession Mock.lib := Mock.session None.
Definition sink_session : @KerbruteSession Mock.lib :=
  Mock.session (Some Mock.hashes).

(** The two configuration texts for [EXAMPLE.COM]. *)
Definition dns_text : string :=
  "[libdefaults]" ++ nl ++ "dns_lookup_kdc = true" ++ nl
  ++ "default_realm = EXAMPLE.COM" ++ nl.

Definition kdc_text : string :=
  "[libdefaults]" ++ nl ++ "default_realm = EXAMPLE.COM" ++ nl
  ++ "[realms]" ++ nl ++ "EXAMPLE.COM = {" ++ nl
  ++ tab ++ "kdc = dc1.example.com" ++ nl
  ++ tab ++ "admin_server = dc1.example.com" ++ nl ++ "}" ++ nl.

Definition kdcs : KdcMap := [(1%Z, "dc1.example.com:88")].

Definition saving : Level * string :=
  (INFO, "Saving any captured hashes to /tmp/hashes").

(** What [NewKerbruteSession] gives for [with_file]. *)
Definition with_file_session : @KerbruteSession Mock.lib :=
  @mkSession Mock.lib "example.com" "EXAMPLE.COM" kdcs kdc_text
    (mkConfig (mkLibDefaults [18; 17; 23]%Z) kdc_text)
    false false (Some Mock.hashes) false.

Definition with_file_world : @World Mock.lib :=
  @mkWorld Mock.lib 2
    [saving;
     (WARNING, "You are capturing AS-REPs, but not downgrading encryption. You probably want to downgrade to arcfour-hmac-md5 (--downgrade) to crack them with a user's password instead of AES keys")]
    [] [] [].

(** What it gives for [downgraded]. *)
Definition downgraded_session : @KerbruteSession Mock.lib :=
  @mkSession Mock.lib "example.com" "EXAMPLE.COM" kdcs dns_text
    (mkConfig (mkLibDefaults [23%Z]) dns_text)
    false false (Some Mock.hashes) false.

Definition downgraded_world : @World Mock.lib :=
  @mkWorld Mock.lib 2
    [saving; (INFO, "Using downgraded encryption: arcfour-hmac-md5")]
    [] [] [].

(** What it gives behind the proxy, for a proxy password. *)
Definition proxied_session (hashFile : option string) (password : string)
    : @KerbruteSession Strict.lib :=
  @mkSession Strict.lib "example.com" "EXAMPLE.COM" kdcs dns_text
    (mkConfig (mkLibDefaults [23%Z])
       (dns_text ++ "socks5 = proxyuser:" ++ password ++ "@127.0.0.1:1080"
        ++ nl ++ "context = background" ++ nl))
    true true hashFile true.

Definition proxy_log : list (Level * string) :=
  [(INFO, "Using SOCKS5 proxy: 127.0.0.1:1080");
   (INFO, "Using SOCKS5 proxy authentication with username: proxyuser");
   (INFO, "Using downgraded encryption: arcfour-hmac-md5")].

Definition proxied_world : @World Strict.lib :=
  @mkWorld Strict.lib 1 proxy_log [] [] [].

Definition proxied_file_world : @World Strict.lib :=
  @mkWorld Strict.lib 2 (saving :: proxy_log) [] [] [].

(** The world after a probe that sent its request and left no other
    trace. *)
Definition sent_world (username : string) : @World Mock.lib :=
  @mkWorld Mock.lib 2 [] [] [] [(username, "EXAMPLE.COM")].

End Cases.

(** * Properties *)

Section Properties.

Context {L : Library}.

(** ** The exporter *)

(** A log call adds one entry to the log. *)
Lemma logf_run (lvl : Level) (msg : string) (w : World) :
  logf lvl msg w =
  Ret (tt, mkWorld (ext w) (log w ++ [(lvl, msg)]) (stdout w) (sink w) (kdc_sent w)).
Proof. reflexivity. Qed.

(** [DumpASRepHash] always returns; it sends nothing to a KDC, prints
    nothing, and hands [exported] to the sink. *)
Lemma DumpASRepHash_returns
    (k : KerbruteSession) (asrep : messages_ASRep) (w : World) :
  exists w', DumpASRepHash k asrep w = Ret (tt, w')
             /\ sink w' = (sink w ++ exported k asrep)%list
             /\ kdc_sent w' = kdc_sent w
             /\ stdout w' = stdout w.
Proof.
  unfold DumpASRepHash, exported.
  destruct (util_ASRepToHashcat asrep) as [hash [e|]].
  - eexists; repeat split; cbn; now rewrite app_nil_r.
  - unfold bind; rewrite logf_run.
    destruct (HashFile k) as [f|].
    + unfold WriteString; cbn [ext log stdout sink kdc_sent].
      destruct (File_WriteString f (hash ++ nl) (ext w)) as [[n [e|]] x];
        cbn; eexists; repeat split; reflexivity.
    + eexists; repeat split; cbn; now rewrite app_nil_r.
Qed.

(** C9.  [DumpASRepHash] has no error result and always returns.  When the
    conversion fails nothing is handed to the sink; when it succeeds and
    a sink is configured the sink receives the hash followed by a
    newline, and a failure of that write only adds an error line to the
    log; without a sink nothing is written. *)
Theorem DumpASRepHash_swallows_errors
    (k : KerbruteSession) (asrep : messages_ASRep) (w : World) :
  exists w',
    DumpASRepHash k asrep w = Ret (tt, w')
    /\ (forall hash e, util_ASRepToHashcat asrep = (hash, Some e) ->
          sink w' = sink w)
    /\ (forall hash f, util_ASRepToHashcat asrep = (hash, None) ->
          HashFile k = Some f ->
          sink w' = (sink w ++ [(f, (hash ++ nl)%string)])%list
          /\ (forall n e x,
                File_WriteString f (hash ++ nl) (ext w) = ((n, Some e), x) ->
                exists notice,
                  log w' = (log w ++ [(NOTICE, notice);
                     (ERROR, ("[!] Error writing hash to file: " ++ Error e)%string)])%list))
    /\ (HashFile k = None -> sink w' = sink w).
Proof.
  unfold DumpASRepHash.
  destruct (util_ASRepToHashcat asrep) as [hash [e|]] eqn:Hconv.
  - eexists; split; [reflexivity|]. cbn.
    repeat split; try reflexivity; intros; discriminate.
  - unfold bind; rewrite logf_run.
    destruct (HashFile k) as [f|] eqn:Hf.
    + unfold WriteString; cbn [ext log stdout sink kdc_sent].
      destruct (File_WriteString f (hash ++ nl) (ext w)) as [[n [e|]] x] eqn:Hw;
        cbn; eexists; (split; [reflexivity|]); cbn;
        (split; [intros; discriminate|]);
        (split; [|intros; discriminate]);
        intros hash' f' Hh Hf'; injection Hh as <-; injection Hf' as <-;
        (split; [reflexivity|]); intros n' e' x' Hw'.
      * rewrite Hw in Hw'. injection Hw' as _ <- _.
        rewrite <- app_assoc. eexists; reflexivity.
      * rewrite Hw in Hw'. discriminate.
    + eexists; split; [reflexivity|]. cbn.
      repeat split; try reflexivity; intros; discriminate.
Qed.

(** ** TestUsername *)

(** The probe up to the reply of the KDC: the request marshals and is
    sent; the probe continues in a world that differs from the initial
    one by the message printed for a failed construction, by the record
    of the request and by the state of the outside. *)
Lemma TestUsername_sent
    (k : KerbruteSession) (username : string) (w : World)
    (req : messages_ASReq) (e1 : option error) (x1 x2 : ExtState)
    (b rb : string) (err : option error) :
  let cl := kclient_NewWithPassword username (Realm k) "foobar" (Config k)
              [DisablePAFXFAST true] in
  messages_NewASReqForTGT (Credentials_Domain cl) (Client_Config cl)
    (Credentials_CName cl) (ext w) = ((req, e1), x1) ->
  ASReq_Marshal req = (b, None) ->
  Client_SendToKDC cl b (Realm k) x1 = ((rb, err), x2) ->
  let w1 := mkWorld x2 (log w)
              (stdout w ++ match e1 with Some e => [Error e] | None => [] end)
              (sink w) (kdc_sent w ++ [(b, Realm k)]) in
  TestUsername k username w =
  match err with
  | None =>
      let (ASRep, err) := ASRep_Unmarshal rb in
      match err with
      | Some e => Ret ((false, Some e), w1)
      | None => bind (DumpASRepHash k ASRep) (fun _ => ret (true, None)) w1
      end
  | Some err =>
      match as_KRBError err with
      | None => Ret ((false, Some err), w1)
      | Some e =>
          if Z.eqb (ErrorCode e) KDC_ERR_PREAUTH_REQUIRED
          then Ret ((true, None), w1)
          else Ret ((false, Some err), w1)
      end
  end.
Proof.
  intros cl Hreq Hm Hs w1.
  unfold TestUsername, bind at 1 2, call. fold cl. rewrite Hreq, Hm.
  unfold bind at 1, SendToKDC.
  destruct e1 as [e1|];
    cbn [fmt_Printf ret set_ext ext log stdout sink kdc_sent];
    rewrite Hs; subst w1; rewrite ?app_nil_r.
  - destruct err as [err|].
    + destruct (as_KRBError err) as [e|]; [|reflexivity].
      destruct (Z.eqb _ _); reflexivity.
    + destruct (ASRep_Unmarshal rb) as [a [e|]]; reflexivity.
  - destruct err as [err|].
    + destruct (as_KRBError err) as [e|]; [|reflexivity].
      destruct (Z.eqb _ _); reflexivity.
    + destruct (ASRep_Unmarshal rb) as [a [e|]]; reflexivity.
Qed.

(** A reply of the KDC exists exactly when the request was sent. *)
Lemma kdc_reply_inv
    (k : KerbruteSession) (username : string) (w : World)
    (rb : string) (err : option error) :
  kdc_reply k username w = Some (rb, err) ->
  let cl := kclient_NewWithPassword username (Realm k) "foobar" (Config k)
              [DisablePAFXFAST true] in
  exists req e1 x1 b x2,
    messages_NewASReqForTGT (Credentials_Domain cl) (Client_Config cl)
      (Credentials_CName cl) (ext w) = ((req, e1), x1)
    /\ ASReq_Marshal req = (b, None)
    /\ Client_SendToKDC cl b (Realm k) x1 = ((rb, err), x2).
Proof.
  intros H. cbv zeta. unfold kdc_reply in H.
  destruct (messages_NewASReqForTGT _ _ _ (ext w)) as [[req e1] x1] eqn:Hr.
  destruct (ASReq_Marshal req) as [b [em|]] eqn:Hm; [discriminate|].
  destruct (Client_SendToKDC _ b (Realm k) x1) as [[rb' err'] x2] eqn:Hs.
  cbn in H. injection H as -> ->.
  exists req, e1, x1, b, x2. repeat split; assumption || reflexivity.
Qed.

(** From a reply of the KDC to the probe after the request was sent. *)
Ltac reply_sent H :=
  let req := fresh "req" in
  let e1 := fresh "e1" in
  let x1 := fresh "x1" in
  let b := fresh "b" in
  let x2 := fresh "x2" in
  let Hr := fresh "Hr" in
  let Hm := fresh "Hm" in
  let Hs := fresh "Hs" in
  destruct (kdc_reply_inv _ _ _ _ _ H)
    as (req & e1 & x1 & b & x2 & Hr & Hm & Hs);
  rewrite (TestUsername_sent _ _ _ _ _ _ _ _ _ _ Hr Hm Hs).

(** C1.  When the reply of the KDC to the request of [TestUsername] is a
    Kerberos error whose code is [KDC_ERR_PREAUTH_REQUIRED], the probe
    returns [(true, nil)] and the hash sink is as it was. *)
Theorem TestUsername_preauth_required
    (k : KerbruteSession) (username : string) (w : World)
    (rb : string) (e : messages_KRBError) :
  kdc_reply k username w = Some (rb, Some (KRBError e)) ->
  ErrorCode e = KDC_ERR_PREAUTH_REQUIRED ->
  exists w', TestUsername k username w = Ret ((true, None), w')
             /\ sink w' = sink w.
Proof.
  intros Hreply Hcode.
  reply_sent Hreply.
  cbn [as_KRBError]. rewrite Hcode. cbn.
  eexists; split; reflexivity.
Qed.

(** C2.  When the reply arrives without error and unmarshals as an AS-REP,
    the probe runs [DumpASRepHash] on it and returns [(true, nil)]; with
    a sink configured and a successful conversion the sink receives
    exactly one entry, the hash followed by a newline. *)
Theorem TestUsername_no_preauth
    (k : KerbruteSession) (username : string) (w : World)
    (rb : string) (asrep : messages_ASRep) :
  kdc_reply k username w = Some (rb, None) ->
  ASRep_Unmarshal rb = (asrep, None) ->
  exists w1 w',
    sink w1 = sink w
    /\ DumpASRepHash k asrep w1 = Ret (tt, w')
    /\ TestUsername k username w = Ret ((true, None), w')
    /\ sink w' = (sink w ++ exported k asrep)%list
    /\ (forall f hash, HashFile k = Some f ->
          util_ASRepToHashcat asrep = (hash, None) ->
          sink w' = (sink w ++ [(f, (hash ++ nl)%string)])%list).
Proof.
  intros Hreply Hu.
  reply_sent Hreply. rewrite Hu.
  match goal with |- context [bind _ _ ?w1] => set (w1' := w1) end.
  destruct (DumpASRepHash_returns k asrep w1') as (w' & Hd & Hsink & _).
  exists w1', w'. unfold bind. rewrite Hd.
  repeat split; auto.
  intros f hash Hf Hc. rewrite Hsink. unfold exported. now rewrite Hc, Hf.
Qed.

(** C3.  A Kerberos error with another code is returned as it is with
    [false]; an error that is not a Kerberos error (from the transport,
    or from unmarshalling the reply) is returned as it is with [false],
    so it is never turned into a Kerberos error; the sink is as it was
    in each case. *)
Theorem TestUsername_errors
    (k : KerbruteSession) (username : string) (w : World) (rb : string) :
  (forall e, kdc_reply k username w = Some (rb, Some (KRBError e)) ->
     ErrorCode e <> KDC_ERR_PREAUTH_REQUIRED ->
     exists w', TestUsername k username w = Ret ((false, Some (KRBError e)), w')
                /\ sink w' = sink w)
  /\ (forall msg, kdc_reply k username w = Some (rb, Some (plainError msg)) ->
     exists w', TestUsername k username w = Ret ((false, Some (plainError msg)), w')
                /\ as_KRBError (plainError msg) = None
                /\ sink w' = sink w)
  /\ (forall asrep err, kdc_reply k username w = Some (rb, None) ->
     ASRep_Unmarshal rb = (asrep, Some err) ->
     exists w', TestUsername k username w = Ret ((false, Some err), w')
                /\ sink w' = sink w).
Proof.
  split; [|split].
  - intros e Hreply Hcode.
    reply_sent Hreply.
    cbn [as_KRBError]. apply Z.eqb_neq in Hcode. rewrite Hcode.
    eexists; split; reflexivity.
  - intros msg Hreply.
    reply_sent Hreply.
    eexists; repeat split; reflexivity.
  - intros asrep err Hreply Hu.
    reply_sent Hreply. rewrite Hu.
    eexists; split; reflexivity.
Qed.

(** [TestUsername] returns once the request has been sent. *)
Lemma TestUsername_sent_returns
    (k : KerbruteSession) (username : string) (w : World)
    (req : messages_ASReq) (e1 : option error) (x1 : ExtState) (b : string) :
  let cl := kclient_NewWithPassword username (Realm k) "foobar" (Config k)
              [DisablePAFXFAST true] in
  messages_NewASReqForTGT (Credentials_Domain cl) (Client_Config cl)
    (Credentials_CName cl) (ext w) = ((req, e1), x1) ->
  ASReq_Marshal req = (b, None) ->
  exists r w', TestUsername k username w = Ret (r, w')
    /\ kdc_sent w' = (kdc_sent w ++ [(b, Realm k)])%list
    /\ stdout w' =
       (stdout w ++ match e1 with Some e => [Error e] | None => [] end)%list.
Proof.
  intros cl Hr Hm.
  destruct (Client_SendToKDC cl b (Realm k) x1) as [[rb err] x2] eqn:Hs.
  rewrite (TestUsername_sent _ _ _ _ _ _ _ _ _ _ Hr Hm Hs).
  destruct err as [err|].
  - destruct (as_KRBError err) as [e|].
    + destruct (Z.eqb _ _); do 2 eexists; repeat split; reflexivity.
    + do 2 eexists; repeat split; reflexivity.
  - destruct (ASRep_Unmarshal rb) as [a [e|]].
    + do 2 eexists; repeat split; reflexivity.
    + match goal with |- context [bind _ _ ?w1] => set (w1' := w1) end.
      destruct (DumpASRepHash_returns k a w1') as (w' & Hd & _ & Hk & Ho).
      unfold bind. rewrite Hd. do 2 eexists; repeat split; eauto.
Qed.

(** C10.  When the request does not marshal, the probe returns [false]
    with the marshalling error; nothing has been sent to a KDC and the
    sink is as it was.  A failure to construct the request alone does
    not end the probe: its message is printed, and if the request then
    marshals it is sent. *)
Theorem TestUsername_marshal_failure
    (k : KerbruteSession) (username : string) (w : World)
    (req : messages_ASReq) (e1 : option error) (x1 : ExtState) (b : string) :
  let cl := kclient_NewWithPassword username (Realm k) "foobar" (Config k)
              [DisablePAFXFAST true] in
  messages_NewASReqForTGT (Credentials_Domain cl) (Client_Config cl)
    (Credentials_CName cl) (ext w) = ((req, e1), x1) ->
  (forall e, ASReq_Marshal req = (b, Some e) ->
     exists w', TestUsername k username w = Ret ((false, Some e), w')
                /\ kdc_sent w' = kdc_sent w
                /\ sink w' = sink w)
  /\ (forall e, e1 = Some e -> ASReq_Marshal req = (b, None) ->
     exists r w', TestUsername k username w = Ret (r, w')
                /\ stdout w' = (stdout w ++ [Error e])%list
                /\ kdc_sent w' = (kdc_sent w ++ [(b, Realm k)])%list).
Proof.
  intros cl Hr. split.
  - intros e Hm.
    unfold TestUsername, bind, call. fold cl. rewrite Hr, Hm.
    destruct e1 as [e1|]; cbn; eexists; repeat split; reflexivity.
  - intros e -> Hm.
    destruct (TestUsername_sent_returns _ _ _ _ _ _ _ Hr Hm) as (r & w' & Ht & Hk & Ho).
    exists r, w'. auto.
Qed.

(** ** TestLogin *)

(** C8.  [TestLogin] always returns.  It returns [(true, nil)] exactly
    when the client is configured and [Login] reports no error; when the
    client is not configured it returns [false] with the error of
    [IsConfigured], and when [Login] fails it returns [false] with the
    error of [Login] itself, so that its class (a Kerberos error and its
    code, or another error) reaches the caller. *)
Theorem TestLogin_result
    (k : KerbruteSession) (username password : string) (w : World) :
  let cl := kclient_NewWithPassword username (Realm k) password (Config k)
              [DisablePAFXFAST true; AssumePreAuthentication true] in
  exists r w',
    TestLogin k username password w = Ret (r, w')
    /\ (r = (true, None) <->
        fst (Client_IsConfigured cl) = true
        /\ fst (Client_Login cl (ext w)) = None)
    /\ (fst (Client_IsConfigured cl) = false ->
        r = (false, snd (Client_IsConfigured cl)))
    /\ (forall e, fst (Client_IsConfigured cl) = true ->
        fst (Client_Login cl (ext w)) = Some e ->
        r = (false, Some e)).
Proof.
  intros cl. unfold TestLogin, defer, bind, call, TestLoginError. fold cl.
  destruct (Client_IsConfigured cl) as [[|] ierr]; cbn [negb fst snd].
  - destruct (Client_Login cl (ext w)) as [[e|] x]; cbn [fst snd ret];
      do 2 eexists; (split; [reflexivity|]);
      repeat split; intros; try discriminate; intuition congruence.
  - cbn [ret]. do 2 eexists; (split; [reflexivity|]).
    repeat split; intros; try discriminate; intuition congruence.
Qed.

(** ** The configuration text *)

(** The two templates parse. *)
Lemma Parse_DNS :
  Parse krb5ConfigTemplateDNS =
  Some [TextNode ("[libdefaults]" ++ nl ++ "dns_lookup_kdc = true" ++ nl
                  ++ "default_realm = ");
        FieldNode "Realm"; TextNode nl].
Proof. vm_compute. reflexivity. Qed.

Lemma Parse_KDC :
  Parse krb5ConfigTemplateKDC =
  Some [TextNode ("[libdefaults]" ++ nl ++ "default_realm = ");
        FieldNode "Realm";
        TextNode (nl ++ "[realms]" ++ nl);
        FieldNode "Realm";
        TextNode (" = {" ++ nl ++ tab ++ "kdc = ");
        FieldNode "DomainController";
        TextNode (nl ++ tab ++ "admin_server = ");
        FieldNode "DomainController";
        TextNode (nl ++ "}" ++ nl)].
Proof. vm_compute. reflexivity. Qed.

(** The DNS template is selected exactly for the empty domain
    controller. *)
Lemma kTemplate_DNS_iff (domainController : string) :
  kTemplate domainController = krb5ConfigTemplateDNS <-> domainController = "".
Proof.
  unfold kTemplate.
  destruct (String.eqb_spec domainController "") as [->|Hne].
  - split; reflexivity.
  - split; [|contradiction]. intros H. apply (f_equal String.length) in H.
    vm_compute in H. discriminate.
Qed.

(** The text rendered from the DNS template. *)
Lemma buildKrb5Template_DNS (realm : string) :
  buildKrb5Template realm "" =
  Ret ("[libdefaults]" ++ nl ++ "dns_lookup_kdc = true" ++ nl
       ++ "default_realm = " ++ htmlEscaper realm ++ nl).
Proof.
  unfold buildKrb5Template. cbn [kTemplate String.eqb].
  rewrite Parse_DNS. reflexivity.
Qed.

(** The text rendered from the template with an explicit KDC: the realm
    and the domain controller pass through [htmlEscaper]. *)
Lemma buildKrb5Template_KDC (realm domainController : string) :
  domainController <> "" ->
  buildKrb5Template realm domainController =
  Ret ("[libdefaults]" ++ nl
       ++ "default_realm = " ++ htmlEscaper realm ++ nl
       ++ "[realms]" ++ nl
       ++ htmlEscaper realm ++ " = {" ++ nl
       ++ tab ++ "kdc = " ++ htmlEscaper domainController ++ nl
       ++ tab ++ "admin_server = " ++ htmlEscaper domainController ++ nl
       ++ "}" ++ nl).
Proof.
  intros Hne. unfold buildKrb5Template, kTemplate.
  destruct (String.eqb_spec domainController "") as [->|_]; [contradiction|].
  rewrite Parse_KDC. cbn. reflexivity.
Qed.

(** [buildKrb5Template] does not panic. *)
Lemma buildKrb5Template_returns (realm domainController : string) :
  exists text, buildKrb5Template realm domainController = Ret text.
Proof.
  destruct (String.eqb_spec domainController "") as [->|Hne].
  - rewrite buildKrb5Template_DNS. eexists; reflexivity.
  - rewrite (buildKrb5Template_KDC _ _ Hne). eexists; reflexivity.
Qed.

(** A plain string is rendered as it is. *)
Lemma htmlEscaper_plain (s : string) : plain s -> htmlEscaper s = s.
Proof.
  induction s as [|c rest IH]; cbn; [reflexivity|].
  intros [Hc Hrest]. rewrite Hc, (IH Hrest). reflexivity.
Qed.

(** C6 (failing input).  The realm [R&D.EXAMPLE.COM] and the domain
    controller [dc1+2.example.com] are not rendered character for
    character: the text holds their HTML-escaped forms and
    neither [kdc = dc1+2.example.com] nor
    [admin_server = dc1+2.example.com] nor the realm as given. *)
Theorem buildKrb5Template_escapes :
  exists text,
    buildKrb5Template "R&D.EXAMPLE.COM" "dc1+2.example.com" = Ret text
    /\ Contains text "default_realm = R&amp;D.EXAMPLE.COM" = true
    /\ Contains text "kdc = dc1&#43;2.example.com" = true
    /\ Contains text "admin_server = dc1&#43;2.example.com" = true
    /\ Contains text "R&D.EXAMPLE.COM" = false
    /\ Contains text "kdc = dc1+2.example.com" = false
    /\ Contains text "admin_server = dc1+2.example.com" = false.
Proof.
  eexists. split; [vm_compute; reflexivity|].
  repeat split; vm_compute; reflexivity.
Qed.

(** ** NewKerbruteSession *)

(** Every return of [assemble] hands over an assembled session; its
    error is decided by the answer of [GetKDCs] alone. *)
Lemma assemble_returns
    (options : KerbruteSessionOptions) (logger : util_Logger)
    (hashFile : option os_File) (w w' : World)
    (k : option KerbruteSession) (err : option error) :
  assemble options logger hashFile w = Ret ((k, err), w') ->
  exists s n ge x x',
    k = Some s
    /\ Domain s = o_Domain options
    /\ Realm s = strings_ToUpper (o_Domain options)
    /\ HashFile s = hashFile
    /\ buildKrb5Template (Realm s) (o_DomainController options)
       = Ret (ConfigString s)
    /\ (o_Downgrade options = true ->
        DefaultTktEnctypeIDs (LibDefaults (Config s)) = [23%Z])
    /\ Config_GetKDCs (Config s) (Realm s) false x = ((n, Kdcs s, ge), x')
    /\ err = match ge with
             | Some _ =>
                 Some (fmt_Errorf ("Couldn't find any KDCs for realm "
                                   ++ Realm s
                                   ++ ". Please specify a Domain Controller"))
             | None => None
             end.
Proof.
  unfold assemble, bind, lift_result, call, panic.
  destruct (buildKrb5Template _ _) as [configstring|v] eqn:Hb; [|discriminate].
  destruct (kconfig_NewFromString configstring) as [Config0|perr]; [|discriminate].
  set (withSocks := if negb (o_Socks5Proxy options =? "") then _ else _).
  assert (Hsocks : exists c1 w1, withSocks w = Ret (c1, w1)).
  { subst withSocks. destruct (negb _).
    - unfold logSocks5, bind. rewrite logf_run.
      destruct (negb (o_Socks5Username options =? ""));
        [destruct (negb (o_Socks5Password options =? ""))|];
        do 2 eexists; reflexivity.
    - do 2 eexists; reflexivity. }
  destruct Hsocks as (c1 & w1 & ->).
  set (cfg := if o_Downgrade options then _ else _).
  assert (Hcfg : exists c2 w2, cfg w1 = Ret (c2, w2)
            /\ (o_Downgrade options = true ->
                DefaultTktEnctypeIDs (LibDefaults c2) = [23%Z])).
  { subst cfg. destruct (o_Downgrade options).
    - do 2 eexists; split; [reflexivity|]. reflexivity.
    - do 2 eexists; split; [reflexivity|]. discriminate. }
  destruct Hcfg as (c2 & w2 & -> & Hdown).
  destruct (Config_GetKDCs c2 _ false (ext w2)) as [[[n kdcs] ge] x'] eqn:Hk.
  unfold ret. intros H. injection H as <- <- _.
  eexists _, n, ge, (ext w2), x'. cbn.
  repeat split; auto.
Qed.

(** Every return of [NewKerbruteSession], classified. *)
Lemma NewKerbruteSession_returns
    (options : KerbruteSessionOptions) (w w' : World)
    (k : option KerbruteSession) (err : option error) :
  NewKerbruteSession options w = Ret ((k, err), w') ->
  (o_Domain options = "" /\ k = None
   /\ err = Some (fmt_Errorf "domain must not be empty") /\ w' = w)
  \/ (o_HashFilename options <> "" /\ k = None
      /\ exists e x,
           os_OpenFile (o_HashFilename options)
             [O_APPEND; O_WRONLY; O_CREATE] 420%Z (ext w) = (inr e, x)
           /\ err = Some e)
  \/ (o_Domain options <> ""
      /\ exists hashFile w1,
           assemble options
             match o_logger options with
             | None => util_NewLogger (o_Verbose options) ""
             | Some lg => lg
             end hashFile w1 = Ret ((k, err), w')).
Proof.
  unfold NewKerbruteSession.
  destruct (String.eqb_spec (o_Domain options) "") as [Hd|Hd].
  - unfold ret. intros H. injection H as <- <- <-. left. auto.
  - destruct (String.eqb_spec (o_HashFilename options) "") as [Hf|Hf];
      cbn [negb].
    + intros H. right; right. split; [assumption|]. eauto.
    + unfold bind at 1, call.
      destruct (os_OpenFile _ _ _ (ext w)) as [[f|e] x] eqn:Ho.
      * unfold bind, ret. rewrite logf_run.
        destruct (negb (o_Downgrade options)); [rewrite logf_run|];
          intros H; right; right; (split; [assumption|]); eauto.
      * unfold ret. intros H. injection H as <- <- _.
        right; left. repeat split; eauto.
Qed.

(** A return with a session went through [assemble]. *)
Ltac assembled H Ha :=
  let Hk := fresh "Hk" in
  let hf := fresh "hf" in
  let w1 := fresh "w1" in
  destruct (NewKerbruteSession_returns _ _ _ _ _ H)
    as [(_ & Hk & _) | [(_ & Hk & _) | (_ & hf & w1 & Ha)]];
  try discriminate Hk.


(** C5.  A session assembled with [Downgrade] set carries a configuration
    whose [DefaultTktEnctypeIDs], the encryption types it asks tickets
    for, is exactly the list [23]. *)
Theorem NewKerbruteSession_downgrade
    (options : KerbruteSessionOptions) (w w' : World)
    (k : KerbruteSession) (err : option error) :
  NewKerbruteSession options w = Ret ((Some k, err), w') ->
  o_Downgrade options = true ->
  DefaultTktEnctypeIDs (LibDefaults (Config k)) = [23%Z].
Proof.
  intros H Hdown.
  assembled H Ha.
  destruct (assemble_returns _ _ _ _ _ _ _ Ha)
    as (s & n & ge & x & x' & Hs & _ & _ & _ & _ & Hd & _).
  injection Hs as ->. auto.
Qed.

(** ** The realm of a session *)

(** A call leaves the caller's session as it was. *)
Lemma step_session (s s' : KerbruteSession * World) :
  step s s' -> fst s' = fst s.
Proof. intros H. destruct H. reflexivity. Qed.

(** So does a sequence of calls. *)
Lemma reachable_session (s s' : KerbruteSession * World) :
  reachable s s' -> fst s' = fst s.
Proof.
  intros H. induction H as [s s' Hstep | s | s1 s2 s3 _ IH12 _ IH23].
  - now apply step_session.
  - reflexivity.
  - congruence.
Qed.

(** C7.  The session [NewKerbruteSession] assembles for the domain [D]
    has [Domain = D] and [Realm = strings.ToUpper(D)], and so has the
    session after any sequence of [TestLogin], [TestUsername] and
    [DumpASRepHash] calls on it. *)
Theorem realm_is_upper_domain
    (options : KerbruteSessionOptions) (w w' : World)
    (k : KerbruteSession) (err : option error) :
  NewKerbruteSession options w = Ret ((Some k, err), w') ->
  forall k2 w2, reachable (k, w') (k2, w2) ->
    Domain k2 = o_Domain options
    /\ Realm k2 = strings_ToUpper (Domain k2).
Proof.
  intros H k2 w2 Hreach.
  apply reachable_session in Hreach. cbn in Hreach. subst k2.
  assembled H Ha.
  destruct (assemble_returns _ _ _ _ _ _ _ Ha)
    as (s & n & ge & x & x' & Hs & Hd & Hr & _).
  injection Hs as ->. rewrite Hr, Hd. auto.
Qed.

End Properties.

(** * The properties on the test double *)

(** [alice] requires pre-authentication. *)
Lemma TestUsername_preauth_required_witness :
  kdc_reply (L := Mock.lib) (Mock.session (Some Mock.hashes)) "alice" Mock.w0
  = Some ("", Some Mock.preauth_required)
  /\ exists w',
       TestUsername (L := Mock.lib) (Mock.session (Some Mock.hashes)) "alice" Mock.w0
       = Ret ((true, None), w')
       /\ sink w' = [].
Proof.
  split; [reflexivity|].
  apply (TestUsername_preauth_required (L := Mock.lib)
           (Mock.session (Some Mock.hashes)) "alice" Mock.w0 ""
           (mkKRBError KDC_ERR_PREAUTH_REQUIRED "preauth required"));
    reflexivity.
Defined.

(** [bob] does not: his hash goes to the sink. *)
Lemma TestUsername_no_preauth_witness :
  kdc_reply (L := Mock.lib) (Mock.session (Some Mock.hashes)) "bob" Mock.w0
  = Some ("asrep:bob", None)
  /\ exists w',
       TestUsername (L := Mock.lib) (Mock.session (Some Mock.hashes)) "bob" Mock.w0
       = Ret ((true, None), w')
       /\ sink w' = [(Mock.hashes, Mock.bob_hash ++ nl)].
Proof.
  split; [reflexivity|].
  destruct (TestUsername_no_preauth (L := Mock.lib)
              (Mock.session (Some Mock.hashes)) "bob" Mock.w0 "asrep:bob" "bob"
              eq_refl eq_refl)
    as (w1 & w' & _ & _ & Hrun & _ & Hsink).
  exists w'. split; [exact Hrun|].
  exact (Hsink Mock.hashes Mock.bob_hash eq_refl eq_refl).
Defined.

(** An unknown principal, a transport failure and a reply that is no
    Kerberos message. *)
Lemma TestUsername_errors_witness :
  (exists w',
     TestUsername (L := Mock.lib) (Mock.session (Some Mock.hashes)) "mallory" Mock.w0
     = Ret ((false, Some Mock.unknown), w') /\ sink w' = [])
  /\ (exists w',
     TestUsername (L := Mock.lib) (Mock.session (Some Mock.hashes)) "timeout" Mock.w0
     = Ret ((false, Some (plainError
               "communication error with KDC via TCP: i/o timeout")), w')
     /\ sink w' = [])
  /\ (exists w',
     TestUsername (L := Mock.lib) (Mock.session (Some Mock.hashes)) "garbage" Mock.w0
     = Ret ((false, Some (plainError
               "asn1: structure error: tags don't match")), w')
     /\ sink w' = []).
Proof.
  split; [|split].
  - apply (proj1 (TestUsername_errors (L := Mock.lib)
                    (Mock.session (Some Mock.hashes)) "mallory" Mock.w0 "")
             (mkKRBError Mock.KDC_ERR_C_PRINCIPAL_UNKNOWN "client not found")
             eq_refl).
    discriminate.
  - destruct (proj1 (proj2 (TestUsername_errors (L := Mock.lib)
                    (Mock.session (Some Mock.hashes)) "timeout" Mock.w0 ""))
             "communication error with KDC via TCP: i/o timeout" eq_refl)
      as (w' & Hrun & _ & Hsink).
    exists w'. split; assumption.
  - apply (proj2 (proj2 (TestUsername_errors (L := Mock.lib)
                    (Mock.session (Some Mock.hashes)) "garbage" Mock.w0 "garbage"))
             "" (plainError "asn1: structure error: tags don't match")
             eq_refl eq_refl).
Defined.

(** A user name with a NUL byte does not marshal; the request for the
    empty user name is reported and sent all the same. *)
Lemma TestUsername_marshal_failure_witness :
  (exists w',
     TestUsername (L := Mock.lib) (Mock.session (Some Mock.hashes))
       ("a" ++ Mock.NUL) Mock.w0
     = Ret ((false, Some (plainError "error marshaling AS_REQ")), w')
     /\ kdc_sent w' = [] /\ sink w' = [])
  /\ (exists r w',
     TestUsername (L := Mock.lib) (Mock.session (Some Mock.hashes)) "" Mock.w0
     = Ret (r, w')
     /\ stdout w' = ["empty principal name"]
     /\ kdc_sent w' = [("", "EXAMPLE.COM")]).
Proof.
  split.
  - apply (proj1 (TestUsername_marshal_failure (L := Mock.lib)
                    (Mock.session (Some Mock.hashes)) ("a" ++ Mock.NUL) Mock.w0
                    ("a" ++ Mock.NUL) None 1 "" eq_refl)
             (plainError "error marshaling AS_REQ") eq_refl).
  - apply (proj2 (TestUsername_marshal_failure (L := Mock.lib)
                    (Mock.session (Some Mock.hashes)) "" Mock.w0
                    "" (Some (plainError "empty principal name")) 1 ""
                    eq_refl)
             (plainError "empty principal name") eq_refl eq_refl).
Defined.

(** The exporter on the reply for [bob], with a sink that refuses the
    write. *)
Lemma DumpASRepHash_swallows_errors_witness :
  exists w',
    DumpASRepHash (L := Mock.lib) (Mock.session (Some "/dev/full")) "bob" Mock.w0
    = Ret (tt, w')
    /\ sink w' = [("/dev/full", Mock.bob_hash ++ nl)]
    /\ exists notice,
         log w' = [(NOTICE, notice);
                   (ERROR, "[!] Error writing hash to file: write /dev/full: no space left on device")].
Proof.
  destruct (DumpASRepHash_swallows_errors (L := Mock.lib)
              (Mock.session (Some "/dev/full")) "bob" Mock.w0)
    as (w' & Hrun & _ & Hok & _).
  destruct (Hok Mock.bob_hash "/dev/full" eq_refl eq_refl) as (Hsink & Hlog).
  exists w'. split; [exact Hrun|]. split; [exact Hsink|].
  exact (Hlog 0%Z (plainError "write /dev/full: no space left on device") 1
           eq_refl).
Defined.

(** A good and a bad password for [alice]. *)
Lemma TestLogin_result_witness :
  (exists w',
     TestLogin (L := Mock.lib) (Mock.session None) "alice" "hunter2" Mock.w0
     = Ret ((true, None), w'))
  /\ (exists w',
     TestLogin (L := Mock.lib) (Mock.session None) "alice" "letmein" Mock.w0
     = Ret ((false, Some Mock.preauth_failed), w')).
Proof.
  split.
  - destruct (TestLogin_result (L := Mock.lib) (Mock.session None)
                "alice" "hunter2" Mock.w0)
      as (r & w' & Hrun & Hiff & _).
    exists w'. rewrite Hrun.
    rewrite (proj2 Hiff (conj eq_refl eq_refl)). reflexivity.
  - destruct (TestLogin_result (L := Mock.lib) (Mock.session None)
                "alice" "letmein" Mock.w0)
      as (r & w' & Hrun & _ & _ & Hfail).
    exists w'. rewrite Hrun.
    rewrite (Hfail Mock.preauth_failed eq_refl eq_refl). reflexivity.
Defined.



(** A downgraded session on [EXAMPLE.COM]. *)
Lemma NewKerbruteSession_downgrade_witness :
  exists k w',
    NewKerbruteSession (L := Mock.lib)
      (Mock.options "example.com" "" Mock.hashes true) Mock.w0
    = Ret ((Some k, None), w')
    /\ DefaultTktEnctypeIDs (LibDefaults (Config k)) = [23%Z].
Proof.
  do 2 eexists. split; [vm_compute; reflexivity|].
  eapply (NewKerbruteSession_downgrade (L := Mock.lib)
            (Mock.options "example.com" "" Mock.hashes true) Mock.w0);
    [vm_compute; reflexivity | reflexivity].
Defined.

(** The session for [example.com] after a user name probe and a login. *)
Lemma realm_is_upper_domain_witness :
  exists k w' k2 w2,
    NewKerbruteSession (L := Mock.lib)
      (Mock.options "example.com" "dc1.example.com" Mock.hashes true) Mock.w0
    = Ret ((Some k, None), w')
    /\ reachable (k, w') (k2, w2)
    /\ kdc_sent w2 = [("bob", "EXAMPLE.COM")]
    /\ Domain k2 = "example.com"
    /\ Realm k2 = "EXAMPLE.COM".
Proof.
  do 4 eexists.
  split; [vm_compute; reflexivity|].
  match goal with
  | |- reachable ?a ?b /\ _ => assert (Hreach : reachable a b)
  end.
  { eapply rt_trans; apply rt_step.
    - eapply (step_call (L := Mock.lib) _ _ _ (CallTestUsername "bob")).
      vm_compute; reflexivity.
    - eapply (step_call (L := Mock.lib) _ _ _ (CallTestLogin "alice" "hunter2")).
      vm_compute; reflexivity. }
  split; [exact Hreach|].
  split; [reflexivity|].
  eapply (realm_is_upper_domain (L := Mock.lib)
            (Mock.options "example.com" "dc1.example.com" Mock.hashes true)
            Mock.w0);
    [ | exact Hreach]; vm_compute; reflexivity.
Defined.

(** ** The scenarios of the specification *)

Example scenario_dns :
  buildKrb5Template (Mock.ToUpper "example.com") ""
  = Ret ("[libdefaults]" ++ nl ++ "dns_lookup_kdc = true" ++ nl
         ++ "default_realm = EXAMPLE.COM" ++ nl).
Proof. reflexivity. Qed.

Example scenario_kdc :
  exists text,
    buildKrb5Template (Mock.ToUpper "example.com") "dc1.example.com" = Ret text
    /\ Contains text "kdc = dc1.example.com" = true
    /\ Contains text "admin_server = dc1.example.com" = true.
Proof. eexists. repeat split; vm_compute; reflexivity. Qed.

(** * Further properties of the construction *)

Section ConstructionProperties.

Context {L : Library}.

(** The proxy branch only logs. *)
Lemma logSocks5_run (options : KerbruteSessionOptions) (w : World) :
  o_Socks5Proxy options <> "" ->
  logSocks5 options w =
  Ret (tt, mkWorld (ext w) (log w ++ socks5_log options) (stdout w) (sink w)
             (kdc_sent w)).
Proof.
  intros Hp. unfold logSocks5, socks5_log, bind. rewrite logf_run.
  destruct (String.eqb_spec (o_Socks5Proxy options) "") as [|_];
    [contradiction|].
  cbn [negb].
  destruct (negb (o_Socks5Username options =? ""));
    [destruct (negb (o_Socks5Password options =? ""))|];
    rewrite ?logf_run; unfold ret; cbn [ext log stdout sink kdc_sent];
    rewrite <- ?app_assoc; reflexivity.
Qed.

(** A run of [assemble] that returns, in full. *)
Lemma assemble_run
    (options : KerbruteSessionOptions) (logger : util_Logger)
    (hashFile : option os_File) (w w' : World)
    (r : option KerbruteSession * option error) :
  assemble options logger hashFile w = Ret (r, w') ->
  exists cs Config0 n kdcs ge x',
    buildKrb5Template (strings_ToUpper (o_Domain options))
      (o_DomainController options) = Ret cs
    /\ kconfig_NewFromString cs = inl Config0
    /\ Config_GetKDCs (final_config options Config0)
         (strings_ToUpper (o_Domain options)) false (ext w)
       = ((n, kdcs, ge), x')
    /\ r = (Some (mkSession (o_Domain options)
                    (strings_ToUpper (o_Domain options)) kdcs cs
                    (final_config options Config0) (o_Verbose options)
                    (o_SafeMode options) hashFile logger),
            match ge with
            | Some _ =>
                Some (fmt_Errorf ("Couldn't find any KDCs for realm "
                                  ++ strings_ToUpper (o_Domain options)
                                  ++ ". Please specify a Domain Controller"))
            | None => None
            end)
    /\ w' = mkWorld x'
              (log w ++ socks5_log options ++ downgrade_log options)
              (stdout w) (sink w) (kdc_sent w).
Proof.
  unfold assemble, lift_result, panic, final_config, downgrade_log.
  unfold bind at 1.
  destruct (buildKrb5Template _ _) as [cs|v] eqn:Hb; [|discriminate].
  destruct (kconfig_NewFromString cs) as [Config0|perr] eqn:Hparse;
    [|discriminate].
  unfold bind at 1.
  destruct (String.eqb_spec (o_Socks5Proxy options) "") as [Hp|Hp]; cbn [negb].
  - unfold socks5_log. rewrite Hp. cbn [String.eqb negb ret app].
    unfold bind at 1.
    destruct (o_Downgrade options); unfold bind, call, ret;
      [rewrite logf_run|]; cbn [ext log stdout sink kdc_sent set_ext];
      destruct (Config_GetKDCs _ _ false (ext w)) as [[[n kdcs] ge] x'] eqn:Hk;
      intros H; injection H as <- <-;
      exists cs, Config0, n, kdcs, ge, x';
      rewrite ?app_nil_r; repeat split; auto.
  - unfold bind at 1. rewrite (logSocks5_run _ _ Hp). unfold ret at 1.
    unfold bind at 1.
    destruct (o_Downgrade options); unfold bind, call, ret;
      [rewrite logf_run|]; cbn [ext log stdout sink kdc_sent set_ext];
      destruct (Config_GetKDCs _ _ false (ext w)) as [[[n kdcs] ge] x'] eqn:Hk;
      intros H; injection H as <- <-;
      exists cs, Config0, n, kdcs, ge, x';
      rewrite <- ?app_assoc, ?app_nil_r; repeat split; auto.
Qed.

(** A run of [NewKerbruteSession] that returns, in full: either one of
    the two early returns, or a run of [assemble] from the world in which
    the hash file, if any, is open and announced. *)
Lemma NewKerbruteSession_run
    (options : KerbruteSessionOptions) (w w' : World)
    (r : option KerbruteSession * option error) :
  NewKerbruteSession options w = Ret (r, w') ->
  (o_Domain options = ""
   /\ r = (None, Some (fmt_Errorf "domain must not be empty")) /\ w' = w)
  \/ (o_Domain options <> "" /\ o_HashFilename options <> ""
      /\ exists e, fst (opened options w) = inr e
           /\ r = (None, Some e)
           /\ w' = set_ext w (snd (opened options w)))
  \/ (o_Domain options <> "" /\ o_HashFilename options <> ""
      /\ exists f, fst (opened options w) = inl f
           /\ assemble options (chosen_logger options) (Some f)
                (mkWorld (snd (opened options w))
                   (log w ++ hashfile_log options f) (stdout w) (sink w)
                   (kdc_sent w))
              = Ret (r, w'))
  \/ (o_Domain options <> "" /\ o_HashFilename options = ""
      /\ assemble options (chosen_logger options) None w = Ret (r, w')).
Proof.
  unfold NewKerbruteSession. fold (chosen_logger options).
  destruct (String.eqb_spec (o_Domain options) "") as [Hd|Hd].
  - unfold ret. intros H. injection H as <- <-. left. auto.
  - destruct (String.eqb_spec (o_HashFilename options) "") as [Hf|Hf];
      cbn [negb].
    + intros H. do 3 right. auto.
    + unfold bind at 1, call. fold (opened options w).
      destruct (opened options w) as [[f|e] x] eqn:Ho; cbn [fst snd].
      * unfold bind at 1 2, hashfile_log. rewrite logf_run.
        destruct (negb (o_Downgrade options));
          [rewrite logf_run|unfold ret at 1];
          cbn [ext log stdout sink kdc_sent set_ext];
          rewrite <- ?app_assoc; intros H;
          right; right; left; repeat split; auto; exists f; auto.
      * unfold ret. intros H. injection H as <- <-.
        right; left. repeat split; auto. exists e. auto.
Qed.

(** Every run that hands over a session went through [assemble]. *)
Lemma NewKerbruteSession_assembled
    (options : KerbruteSessionOptions) (w w' : World)
    (s : KerbruteSession) (err : option error) :
  NewKerbruteSession options w = Ret ((Some s, err), w') ->
  o_Domain options <> ""
  /\ exists hashFile w1,
       assemble options (chosen_logger options) hashFile w1
       = Ret ((Some s, err), w')
       /\ ext w1 = lookup_state options w
       /\ (o_HashFilename options = "" -> hashFile = None /\ log w1 = log w)
       /\ (o_HashFilename options <> "" ->
           exists f, fst (opened options w) = inl f /\ hashFile = Some f
                     /\ log w1 = (log w ++ hashfile_log options f)%list).
Proof.
  intros H. unfold lookup_state.
  destruct (NewKerbruteSession_run _ _ _ _ H)
    as [(_ & Hr & _) | [(_ & _ & e & _ & Hr & _)
       | [(Hd & Hf & f & Ho & Ha) | (Hd & Hf & Ha)]]];
    try discriminate Hr; (split; [assumption|]).
  - eexists (Some f), _. split; [exact Ha|]. cbn [ext log].
    destruct (String.eqb_spec (o_HashFilename options) "") as [|_];
      [contradiction|].
    split; [reflexivity|].
    split; [intros; contradiction|].
    intros _. exists f. repeat split; auto.
  - exists None, w. split; [exact Ha|]. rewrite Hf. cbn [String.eqb].
    split; [reflexivity|].
    split; [intros; split; reflexivity|].
    intros Hne. contradiction.
Qed.

(** X1.  The session [NewKerbruteSession] hands over takes [Verbose] and
    [SafeMode] from the options, carries the logger of the options or a
    new one, holds in [ConfigString] the text rendered for its realm and
    the domain controller of the options, and has a hash file exactly
    when a file name was given: the file [os.OpenFile] returned for that
    name, opened for appending. *)
Theorem NewKerbruteSession_fields
    (options : KerbruteSessionOptions) (w w' : World)
    (s : KerbruteSession) (err : option error) :
  NewKerbruteSession options w = Ret ((Some s, err), w') ->
  Verbose s = o_Verbose options
  /\ SafeMode s = o_SafeMode options
  /\ Logger s = chosen_logger options
  /\ buildKrb5Template (Realm s) (o_DomainController options)
     = Ret (ConfigString s)
  /\ (o_HashFilename options = "" -> HashFile s = None)
  /\ (o_HashFilename options <> "" ->
      exists f, fst (opened options w) = inl f /\ HashFile s = Some f).
Proof.
  intros H.
  destruct (NewKerbruteSession_assembled _ _ _ _ _ H)
    as (_ & hf & w1 & Ha & _ & Hnone & Hsome).
  destruct (assemble_run _ _ _ _ _ _ Ha)
    as (cs & Config0 & n & kdcs & ge & x' & Hb & _ & _ & Hr & _).
  injection Hr as -> _. cbn.
  repeat split; auto.
  - intros Hf. apply (Hnone Hf).
  - intros Hf. destruct (Hsome Hf) as (f & Ho & -> & _). eauto.
Qed.

(** X2.  The configuration of the session is the one parsed from its
    [ConfigString], with the proxy enabled if one was given, then the
    context attached, then the ticket encryption types set to [23] if
    the downgrade was asked for; without the downgrade the encryption
    types are those the library derived. *)
Theorem NewKerbruteSession_config
    (options : KerbruteSessionOptions) (w w' : World)
    (s : KerbruteSession) (err : option error) :
  NewKerbruteSession options w = Ret ((Some s, err), w') ->
  exists Config0,
    kconfig_NewFromString (ConfigString s) = inl Config0
    /\ Config s = final_config options Config0
    /\ (o_Downgrade options = false ->
        Config s =
        Config_WithContext
          (if negb (String.eqb (o_Socks5Proxy options) "")
           then Config_EnableSocks5 Config0 (o_Socks5Proxy options)
                  (o_Socks5Username options) (o_Socks5Password options)
           else Config0)).
Proof.
  intros H.
  destruct (NewKerbruteSession_assembled _ _ _ _ _ H)
    as (_ & hf & w1 & Ha & _).
  destruct (assemble_run _ _ _ _ _ _ Ha)
    as (cs & Config0 & n & kdcs & ge & x' & _ & Hp & _ & Hr & _).
  injection Hr as -> _. cbn. exists Config0.
  repeat split; auto.
  intros Hd. unfold final_config. rewrite Hd. reflexivity.
Qed.

(** X3.  A rendered configuration the library does not parse makes
    [NewKerbruteSession] panic with the message of the parse error: it
    returns neither a session nor an error, and a hash file opened
    before stays open. *)
Theorem NewKerbruteSession_parse_panic
    (options : KerbruteSessionOptions) (w : World)
    (cs : string) (perr : error) :
  o_Domain options <> "" ->
  (o_HashFilename options <> "" -> exists f, fst (opened options w) = inl f) ->
  buildKrb5Template (strings_ToUpper (o_Domain options))
    (o_DomainController options) = Ret cs ->
  kconfig_NewFromString cs = inr perr ->
  NewKerbruteSession options w = Panic (Error perr).
Proof.
  intros Hd Hopen Hb Hp.
  assert (Ha : forall hf w1,
             assemble options (chosen_logger options) hf w1
             = Panic (Error perr)).
  { intros hf w1. unfold assemble, bind, lift_result, panic.
    rewrite Hb, Hp. reflexivity. }
  unfold NewKerbruteSession. fold (chosen_logger options).
  destruct (String.eqb_spec (o_Domain options) "") as [|_]; [contradiction|].
  destruct (String.eqb_spec (o_HashFilename options) "") as [Hf|Hf];
    cbn [negb]; [apply Ha|].
  destruct (Hopen Hf) as (f & Ho).
  unfold bind at 1, call. fold (opened options w).
  destruct (opened options w) as [[f'|e] x]; cbn in Ho; [|discriminate].
  unfold bind at 1 2. rewrite logf_run.
  destruct (negb (o_Downgrade options)); [rewrite logf_run|unfold ret at 1];
    apply Ha.
Qed.

(** X4.  A hash file that does not open ends the construction at once:
    the error of [os.OpenFile] is returned with no session, nothing is
    logged, and the configuration is neither rendered nor parsed, so that
    there is no panic either. *)
Theorem NewKerbruteSession_open_failure
    (options : KerbruteSessionOptions) (w : World) (e : error) :
  o_Domain options <> "" ->
  o_HashFilename options <> "" ->
  fst (opened options w) = inr e ->
  NewKerbruteSession options w
  = Ret ((None, Some e), set_ext w (snd (opened options w))).
Proof.
  intros Hd Hf Ho. unfold NewKerbruteSession.
  destruct (String.eqb_spec (o_Domain options) "") as [|_]; [contradiction|].
  destruct (String.eqb_spec (o_HashFilename options) "") as [|_];
    [contradiction|].
  cbn [negb]. unfold bind, call. fold (opened options w).
  destruct (opened options w) as [[f|e'] x]; cbn in Ho; [discriminate|].
  injection Ho as ->. reflexivity.
Qed.

(** What a returning [NewKerbruteSession] leaves in the world. *)
Lemma NewKerbruteSession_emits
    (options : KerbruteSessionOptions) (w w' : World)
    (r : option KerbruteSession * option error) :
  NewKerbruteSession options w = Ret (r, w') ->
  log w' = (log w ++ construction_log options w)%list
  /\ stdout w' = stdout w /\ sink w' = sink w /\ kdc_sent w' = kdc_sent w.
Proof.
  intros H. unfold construction_log.
  destruct (NewKerbruteSession_run _ _ _ _ H)
    as [(Hd & _ & ->) | [(Hd & Hf & e & Ho & _ & ->)
       | [(Hd & Hf & f & Ho & Ha) | (Hd & Hf & Ha)]]].
  - rewrite Hd. cbn. rewrite app_nil_r. auto.
  - destruct (String.eqb_spec (o_Domain options) "") as [|_]; [contradiction|].
    destruct (String.eqb_spec (o_HashFilename options) "") as [|_];
      [contradiction|].
    cbn [negb]. rewrite Ho. cbn. rewrite app_nil_r. auto.
  - destruct (String.eqb_spec (o_Domain options) "") as [|_]; [contradiction|].
    destruct (String.eqb_spec (o_HashFilename options) "") as [|_];
      [contradiction|].
    cbn [negb]. rewrite Ho.
    destruct (assemble_run _ _ _ _ _ _ Ha)
      as (cs & Config0 & n & kdcs & ge & x' & _ & _ & _ & _ & ->).
    cbn. rewrite <- !app_assoc. auto.
  - destruct (String.eqb_spec (o_Domain options) "") as [|_]; [contradiction|].
    rewrite Hf. cbn [String.eqb negb].
    destruct (assemble_run _ _ _ _ _ _ Ha)
      as (cs & Config0 & n & kdcs & ge & x' & _ & _ & _ & _ & ->).
    cbn. auto.
Qed.

(** X5.  The construction only logs: it prints nothing, writes nothing
    to a hash file and sends nothing to a KDC itself, and it only adds
    entries at the end of the log. *)
Theorem NewKerbruteSession_only_logs
    (options : KerbruteSessionOptions) (w w' : World)
    (r : option KerbruteSession * option error) :
  NewKerbruteSession options w = Ret (r, w') ->
  (exists added, log w' = (log w ++ added)%list)
  /\ stdout w' = stdout w /\ sink w' = sink w /\ kdc_sent w' = kdc_sent w.
Proof.
  intros H.
  destruct (NewKerbruteSession_emits _ _ _ _ H) as (Hl & Ho & Hs & Hk).
  repeat split; auto. eexists; exact Hl.
Qed.

(** The proxy entries of the log depend on the password only through its
    being empty or not. *)
Lemma socks5_log_password
    (options : KerbruteSessionOptions) (p1 p2 : string) :
  p1 <> "" -> p2 <> "" ->
  socks5_log (with_Socks5Password options p1)
  = socks5_log (with_Socks5Password options p2).
Proof.
  intros H1 H2. unfold socks5_log, with_Socks5Password. cbn.
  destruct (String.eqb_spec p1 "") as [|_]; [contradiction|].
  destruct (String.eqb_spec p2 "") as [|_]; [contradiction|].
  reflexivity.
Qed.

(** X6.  The SOCKS5 password does not reach the log: two constructions
    that differ only in a non-empty proxy password log the same entries
    (and print and write the same, which is nothing). *)
Theorem NewKerbruteSession_log_ignores_password
    (options : KerbruteSessionOptions) (p1 p2 : string) (w w1 w2 : World)
    (r1 r2 : option KerbruteSession * option error) :
  p1 <> "" -> p2 <> "" ->
  NewKerbruteSession (with_Socks5Password options p1) w = Ret (r1, w1) ->
  NewKerbruteSession (with_Socks5Password options p2) w = Ret (r2, w2) ->
  log w1 = log w2 /\ stdout w1 = stdout w2 /\ sink w1 = sink w2.
Proof.
  intros Hp1 Hp2 H1 H2.
  destruct (NewKerbruteSession_emits _ _ _ _ H1) as (Hl1 & Ho1 & Hs1 & _).
  destruct (NewKerbruteSession_emits _ _ _ _ H2) as (Hl2 & Ho2 & Hs2 & _).
  rewrite Hl1, Hl2, Ho1, Ho2, Hs1, Hs2. repeat split.
  f_equal. unfold construction_log.
  rewrite (socks5_log_password options p1 p2 Hp1 Hp2). reflexivity.
Qed.

(** X7.  When a session is handed over, the construction logs a warning
    exactly when the session has a hash file and the downgrade was not
    asked for. *)
Theorem NewKerbruteSession_warning
    (options : KerbruteSessionOptions) (w w' : World)
    (s : KerbruteSession) (err : option error) :
  NewKerbruteSession options w = Ret ((Some s, err), w') ->
  exists added,
    log w' = (log w ++ added)%list
    /\ ((exists msg, In (WARNING, msg) added) <->
        HashFile s <> None /\ o_Downgrade options = false).
Proof.
  intros H.
  destruct (NewKerbruteSession_emits _ _ _ _ H) as (Hl & _).
  destruct (NewKerbruteSession_assembled _ _ _ _ _ H)
    as (Hd & hf & w1 & Ha & _ & Hnone0 & Hsome0).
  destruct (assemble_run _ _ _ _ _ _ Ha)
    as (cs & Config0 & n & kdcs & ge & x' & _ & _ & _ & Hr & _).
  injection Hr as -> _.
  assert (Hnone : o_HashFilename options = "" -> hf = None)
    by (intros Hf; apply (Hnone0 Hf)).
  assert (Hsome : o_HashFilename options <> "" ->
                  exists f, fst (opened options w) = inl f /\ hf = Some f).
  { intros Hf. destruct (Hsome0 Hf) as (f & Ho & -> & _). eauto. }
  cbn [HashFile].
  exists (construction_log options w). split; [exact Hl|].
  assert (Hrest : forall msg,
             ~ In (WARNING, msg) (socks5_log options ++ downgrade_log options)).
  { intros msg Hin. apply in_app_or in Hin. unfold socks5_log, downgrade_log in Hin.
    destruct (negb (o_Socks5Proxy options =? ""));
      destruct (negb (o_Socks5Username options =? ""));
      destruct (negb (o_Socks5Password options =? ""));
      destruct (o_Downgrade options); cbn in Hin;
      intuition discriminate. }
  unfold construction_log.
  destruct (String.eqb_spec (o_Domain options) "") as [|_]; [contradiction|].
  destruct (String.eqb_spec (o_HashFilename options) "") as [Hf|Hf];
    cbn [negb].
  - rewrite (Hnone Hf). split.
    + intros (msg & Hin). elim (Hrest msg Hin).
    + intros (Hne & _). contradiction.
  - destruct (Hsome Hf) as (f & Ho & Hs). rewrite Ho, Hs.
    unfold hashfile_log. split.
    + intros (msg & Hin). split; [discriminate|].
      destruct (o_Downgrade options); [|reflexivity].
      cbn in Hin. destruct Hin as [Hin|Hin]; [discriminate|].
      elim (Hrest msg Hin).
    + intros (_ & Hdown). rewrite Hdown. cbn. eexists. right. left.
      reflexivity.
Qed.

(** X8.  The KDCs of the session and the error of the construction come
    from one call of [GetKDCs]: on the configuration the session keeps
    (after proxy, context and downgrade), for the realm of the session,
    with [tcp = false], made right after the hash file was opened. *)
Theorem NewKerbruteSession_kdc_lookup
    (options : KerbruteSessionOptions) (w w' : World)
    (s : KerbruteSession) (err : option error) :
  NewKerbruteSession options w = Ret ((Some s, err), w') ->
  exists n ge,
    Config_GetKDCs (Config s) (Realm s) false (lookup_state options w)
    = ((n, Kdcs s, ge), ext w')
    /\ (err = None <-> ge = None).
Proof.
  intros H.
  destruct (NewKerbruteSession_assembled _ _ _ _ _ H)
    as (_ & hf & w1 & Ha & Hx & _).
  destruct (assemble_run _ _ _ _ _ _ Ha)
    as (cs & Config0 & n & kdcs & ge & x' & _ & _ & Hk & Hr & ->).
  injection Hr as -> ->. cbn. rewrite <- Hx. exists n, ge.
  split; [exact Hk|].
  destruct ge; split; intros; (discriminate || reflexivity).
Qed.

End ConstructionProperties.

(** * Further properties of the configuration text *)

Section TemplateProperties.

Lemma prefix_nil (s : string) : String.prefix "" s = true.
Proof. destruct s; reflexivity. Qed.

Lemma prefix_app (s rest : string) : String.prefix s (s ++ rest) = true.
Proof.
  induction s as [|c s IH]; cbn [append].
  - apply prefix_nil.
  - cbn. destruct (ascii_dec c c) as [_|Hne]; [exact IH|contradiction].
Qed.

Lemma Contains_prefix (s substr : string) :
  String.prefix substr s = true -> Contains s substr = true.
Proof. intros H. destruct s; cbn [Contains]; rewrite H; reflexivity. Qed.

Lemma Contains_skip (skipped s substr : string) :
  Contains s substr = true -> Contains (skipped ++ s) substr = true.
Proof.
  intros H. induction skipped as [|c skipped IH]; cbn [append]; [exact H|].
  cbn [Contains]. destruct (String.prefix substr (String c (skipped ++ s)));
    [reflexivity|exact IH].
Qed.

Lemma append_assoc (s t u : string) : (s ++ t) ++ u = s ++ t ++ u.
Proof.
  induction s as [|c s IH]; cbn; [reflexivity|]. rewrite IH. reflexivity.
Qed.

(** A text starts with a line it starts with. *)
Lemma prefix_value (label value close rest : string) :
  String.prefix (label ++ value ++ close) (label ++ value ++ close ++ rest)
  = true.
Proof.
  rewrite <- (append_assoc value close rest).
  rewrite <- (append_assoc label (value ++ close) rest).
  apply prefix_app.
Qed.

Lemma all_bytes_app (p : ascii -> bool) (s t : string) :
  all_bytes p (s ++ t) = all_bytes p s && all_bytes p t.
Proof.
  induction s as [|c s IH]; cbn; [reflexivity|].
  rewrite IH, andb_assoc. reflexivity.
Qed.

(** The escaper lets none of the six bytes through. *)
Lemma htmlEscaper_bytes (s : string) :
  all_bytes (fun c => negb (escaped_away c)) (htmlEscaper s) = true.
Proof.
  induction s as [|c s IH]; cbn [htmlEscaper]; [reflexivity|].
  unfold htmlReplacement.
  destruct (Ascii.eqb c "000") eqn:E0; [rewrite all_bytes_app, IH; reflexivity|].
  destruct (Ascii.eqb c "034") eqn:E1; [rewrite all_bytes_app, IH; reflexivity|].
  destruct (Ascii.eqb c "&") eqn:E2; [rewrite all_bytes_app, IH; reflexivity|].
  destruct (Ascii.eqb c "'") eqn:E3; [rewrite all_bytes_app, IH; reflexivity|].
  destruct (Ascii.eqb c "+") eqn:E4; [rewrite all_bytes_app, IH; reflexivity|].
  destruct (Ascii.eqb c "<") eqn:E5; [rewrite all_bytes_app, IH; reflexivity|].
  destruct (Ascii.eqb c ">") eqn:E6; [rewrite all_bytes_app, IH; reflexivity|].
  cbn [all_bytes]. rewrite IH. unfold escaped_away.
  rewrite E0, E1, E3, E4, E5, E6. reflexivity.
Qed.

(** X9.  [buildKrb5Template] returns for every realm and domain
    controller.  Its text starts with the [dns_lookup_kdc = true] header
    exactly when the domain controller is empty; otherwise it is the
    [realms] form. *)
Theorem buildKrb5Template_dns_iff (realm domainController : string) :
  exists text,
    buildKrb5Template realm domainController = Ret text
    /\ (String.prefix ("[libdefaults]" ++ nl ++ "dns_lookup_kdc = true" ++ nl) text
        = true <-> domainController = "")
    /\ (String.prefix ("[libdefaults]" ++ nl ++ "default_realm = ") text
        = true <-> domainController <> "").
Proof.
  destruct (String.eqb_spec domainController "") as [->|Hne].
  - rewrite buildKrb5Template_DNS. eexists. split; [reflexivity|]. split.
    + split; intros _; reflexivity.
    + split; intros H; [cbn in H; discriminate H | contradiction].
  - rewrite (buildKrb5Template_KDC _ _ Hne). eexists. split; [reflexivity|].
    split.
    + split; intros H; [cbn in H; discriminate H | contradiction].
    + split; intros _; [assumption|]. cbn. apply prefix_nil.
Qed.

(** X10.  For a realm and a non-empty domain controller without the
    bytes NUL, double quote, ampersand, apostrophe, plus, less-than and
    greater-than, the text holds the lines [default_realm = R],
    [kdc = H] and [admin_server = H] with both values as given. *)
Theorem buildKrb5Template_plain (realm domainController : string) :
  plain realm -> plain domainController -> domainController <> "" ->
  exists text,
    buildKrb5Template realm domainController = Ret text
    /\ Contains text ("default_realm = " ++ realm ++ nl) = true
    /\ Contains text (nl ++ realm ++ " = {" ++ nl) = true
    /\ Contains text (tab ++ "kdc = " ++ domainController ++ nl) = true
    /\ Contains text (tab ++ "admin_server = " ++ domainController ++ nl)
       = true.
Proof.
  intros Hr Hd Hne.
  rewrite (buildKrb5Template_KDC _ _ Hne).
  rewrite (htmlEscaper_plain _ Hr), (htmlEscaper_plain _ Hd).
  eexists. split; [reflexivity|].
  repeat split.
  - apply (Contains_skip ("[libdefaults]" ++ nl)), Contains_prefix.
    apply (prefix_value "default_realm = " realm nl).
  - apply (Contains_skip ("[libdefaults]" ++ nl ++ "default_realm = " ++ realm)).
    apply (Contains_skip (nl ++ "[realms]")), Contains_prefix.
    apply (prefix_value nl realm (" = {" ++ nl)).
  - apply (Contains_skip ("[libdefaults]" ++ nl ++ "default_realm = " ++ realm)).
    apply (Contains_skip (nl ++ "[realms]" ++ nl ++ realm)).
    apply (Contains_skip (" = {" ++ nl)), Contains_prefix.
    apply (prefix_value (tab ++ "kdc = ") domainController nl).
  - apply (Contains_skip ("[libdefaults]" ++ nl ++ "default_realm = " ++ realm)).
    apply (Contains_skip (nl ++ "[realms]" ++ nl ++ realm)).
    apply (Contains_skip (" = {" ++ nl ++ tab ++ "kdc = " ++ domainController)).
    apply (Contains_skip nl), Contains_prefix.
    apply (prefix_value (tab ++ "admin_server = ") domainController nl).
Qed.

(** X11.  Whatever the realm and the domain controller, the text holds
    none of the bytes NUL, double quote, apostrophe, plus, less-than and
    greater-than: such a byte of a value never reaches the
    configuration. *)
Theorem buildKrb5Template_bytes (realm domainController text : string) :
  buildKrb5Template realm domainController = Ret text ->
  all_bytes (fun c => negb (escaped_away c)) text = true.
Proof.
  destruct (String.eqb_spec domainController "") as [->|Hne].
  - rewrite buildKrb5Template_DNS.
    match goal with
    | |- Ret ?t = Ret _ -> _ =>
        assert (Hall : all_bytes (fun c => negb (escaped_away c)) t = true)
          by (rewrite !all_bytes_app, htmlEscaper_bytes; reflexivity)
    end.
    intros H. injection H as <-. exact Hall.
  - rewrite (buildKrb5Template_KDC _ _ Hne).
    match goal with
    | |- Ret ?t = Ret _ -> _ =>
        assert (Hall : all_bytes (fun c => negb (escaped_away c)) t = true)
          by (rewrite !all_bytes_app, !htmlEscaper_bytes; reflexivity)
    end.
    intros H. injection H as <-. exact Hall.
Qed.

End TemplateProperties.

(** * Further properties of the probes *)

Section ProbeProperties.

Context {L : Library}.

(** The probe when the request does not marshal. *)
Lemma TestUsername_unsent
    (k : KerbruteSession) (username : string) (w : World)
    (req : messages_ASReq) (e1 : option error) (x1 : ExtState)
    (b : string) (em : error) :
  let cl := kclient_NewWithPassword username (Realm k) "foobar" (Config k)
              [DisablePAFXFAST true] in
  messages_NewASReqForTGT (Credentials_Domain cl) (Client_Config cl)
    (Credentials_CName cl) (ext w) = ((req, e1), x1) ->
  ASReq_Marshal req = (b, Some em) ->
  TestUsername k username w =
  Ret ((false, Some em),
       mkWorld x1 (log w)
         (stdout w ++ match e1 with Some e => [Error e] | None => [] end)
         (sink w) (kdc_sent w)).
Proof.
  intros cl Hr Hm. unfold TestUsername, bind, call. fold cl. rewrite Hr, Hm.
  destruct e1 as [e1|]; cbn; rewrite ?app_nil_r; reflexivity.
Qed.

(** Every run of the probe ends in one of the five ways of [probe_end]. *)
Lemma TestUsername_run
    (k : KerbruteSession) (username : string) (w : World) :
  exists r w', TestUsername k username w = Ret (r, w')
               /\ probe_end k username w r w'.
Proof.
  pose (cl := kclient_NewWithPassword username (Realm k) "foobar" (Config k)
                [DisablePAFXFAST true]).
  destruct (messages_NewASReqForTGT (Credentials_Domain cl) (Client_Config cl)
              (Credentials_CName cl) (ext w)) as [[req e1] x1] eqn:Hr.
  assert (Hreply : forall b err,
             ASReq_Marshal req = (b, err) ->
             kdc_reply k username w =
             match err with
             | Some _ => None
             | None => Some (fst (Client_SendToKDC cl b (Realm k) x1))
             end).
  { intros b err Hm. unfold kdc_reply. fold cl. rewrite Hr, Hm. reflexivity. }
  destruct (ASReq_Marshal req) as [b [em|]] eqn:Hm.
  - rewrite (TestUsername_unsent _ _ _ _ _ _ _ _ Hr Hm).
    do 2 eexists. split; [reflexivity|].
    apply end_unsent; [exact (Hreply _ _ eq_refl) | reflexivity ..].
  - specialize (Hreply _ _ eq_refl). cbn in Hreply.
    destruct (Client_SendToKDC cl b (Realm k) x1) as [[rb err] x2] eqn:Hs.
    cbn in Hreply.
    rewrite (TestUsername_sent _ _ _ _ _ _ _ _ _ _ Hr Hm Hs).
    destruct err as [err|].
    + destruct err as [e|msg]; cbn [as_KRBError].
      * destruct (Z.eqb_spec (ErrorCode e) KDC_ERR_PREAUTH_REQUIRED) as [Hc|Hc];
          do 2 eexists; (split; [reflexivity|]).
        -- eapply end_preauth; [exact Hreply | exact Hc | reflexivity ..].
        -- eapply end_error; [exact Hreply | | reflexivity ..].
           intros e' He'. injection He' as <-. exact Hc.
      * do 2 eexists. split; [reflexivity|].
        eapply end_error; [exact Hreply | | reflexivity ..].
        intros e' He'. discriminate He'.
    + destruct (ASRep_Unmarshal rb) as [asrep [e|]] eqn:Hu.
      * do 2 eexists. split; [reflexivity|].
        eapply end_unparsed; [exact Hreply | rewrite Hu; reflexivity
                             | reflexivity ..].
      * match goal with |- context [bind _ _ ?w1] => set (w1' := w1) end.
        destruct (DumpASRepHash_returns k asrep w1') as (w' & Hd & Hsink & Hk & _).
        unfold bind. rewrite Hd. do 2 eexists. split; [reflexivity|].
        eapply (end_asrep _ _ _ rb asrep b w1' w');
          [exact Hreply | exact Hu | reflexivity | reflexivity | exact Hd
          | exact Hsink | exact Hk].
Qed.

(** X12.  [TestUsername] always returns, and its two results agree: it
    returns either [true] with a nil error or [false] with an error,
    never [true] with an error nor [false] without one. *)
Theorem TestUsername_result_coherent
    (k : KerbruteSession) (username : string) (w : World) :
  exists r w',
    TestUsername k username w = Ret (r, w')
    /\ (r = (true, None) \/ exists e, r = (false, Some e)).
Proof.
  destruct (TestUsername_run k username w) as (r & w' & Hrun & Hend).
  exists r, w'. split; [exact Hrun|].
  destruct Hend; eauto.
Qed.

(** X13.  [TestUsername] reports a user name as valid only on two
    replies: a Kerberos error with the code [KDC_ERR_PREAUTH_REQUIRED],
    or a reply without error that unmarshals as an AS-REP. *)
Theorem TestUsername_true_only_if
    (k : KerbruteSession) (username : string) (w w' : World)
    (err : option error) :
  TestUsername k username w = Ret ((true, err), w') ->
  err = None
  /\ exists rb,
       (exists e, kdc_reply k username w = Some (rb, Some (KRBError e))
                  /\ ErrorCode e = KDC_ERR_PREAUTH_REQUIRED)
       \/ (kdc_reply k username w = Some (rb, None)
           /\ snd (ASRep_Unmarshal rb) = None).
Proof.
  intros H.
  destruct (TestUsername_run k username w) as (r & w2 & Hrun & Hend).
  rewrite Hrun in H. injection H as -> ->.
  inversion Hend; subst; (split; [reflexivity|]); exists rb.
  - left. eauto.
  - right. split; [assumption|].
    match goal with Hu : ASRep_Unmarshal rb = _ |- _ => rewrite Hu end.
    reflexivity.
Qed.

(** X14.  A probe hands at most one request to [SendToKDC], for the
    realm of the session: none when the request does not marshal, one
    otherwise, whatever the reply; it never sends again. *)
Theorem TestUsername_one_request
    (k : KerbruteSession) (username : string) (w w' : World)
    (r : bool * option error) :
  TestUsername k username w = Ret (r, w') ->
  (kdc_reply k username w = None /\ kdc_sent w' = kdc_sent w)
  \/ (kdc_reply k username w <> None
      /\ exists b, kdc_sent w' = (kdc_sent w ++ [(b, Realm k)])%list).
Proof.
  intros H.
  destruct (TestUsername_run k username w) as (r2 & w2 & Hrun & Hend).
  rewrite Hrun in H. injection H as -> ->.
  destruct Hend as [em w' Hreply Hs Hl Hk | rb e b w' Hreply
                   | rb err b w' Hreply | rb err b w' Hreply
                   | rb asrep b w1 w' Hreply];
    [left; auto | right ..];
    (split; [rewrite Hreply; discriminate | exists b; assumption]).
Qed.

(** X15.  A probe hands at most one entry to the hash sink, and a probe
    that reports [false] leaves the sink and the log as they were: what
    failed is told to the caller only. *)
Theorem TestUsername_sink_and_log
    (k : KerbruteSession) (username : string) (w w' : World)
    (r : bool * option error) :
  TestUsername k username w = Ret (r, w') ->
  (exists entries, sink w' = (sink w ++ entries)%list
                   /\ (List.length entries <= 1)%nat)
  /\ (fst r = false -> sink w' = sink w /\ log w' = log w).
Proof.
  intros H.
  destruct (TestUsername_run k username w) as (r2 & w2 & Hrun & Hend).
  rewrite Hrun in H. injection H as -> ->.
  destruct Hend as [em w' Hreply Hs Hl Hk | rb e b w' Hreply Hc Hs Hl Hk
                   | rb err b w' Hreply Hc Hs Hl Hk
                   | rb err b w' Hreply Hu Hs Hl Hk
                   | rb asrep b w1 w' Hreply Hu Hs1 Hl1 Hd Hs Hk];
    cbn [fst].
  1-4: split; [exists []; rewrite app_nil_r; split; [assumption|cbn; lia]
              | intros _; auto].
  split; [|discriminate].
  exists (exported k asrep). split; [assumption|].
  unfold exported.
  destruct (util_ASRepToHashcat asrep) as [hash [e|]];
    destruct (HashFile k); cbn; lia.
Qed.

(** X16.  When the account needs no pre-authentication and the hash
    converts, the hash is in a NOTICE entry of the log whether or not a
    sink is configured; without a sink that entry is all the probe leaves
    of it. *)
Theorem TestUsername_hash_logged
    (k : KerbruteSession) (username : string) (w : World)
    (rb : string) (asrep : messages_ASRep) (hash : string) :
  kdc_reply k username w = Some (rb, None) ->
  ASRep_Unmarshal rb = (asrep, None) ->
  util_ASRepToHashcat asrep = (hash, None) ->
  exists w' rest,
    TestUsername k username w = Ret ((true, None), w')
    /\ log w' =
       (log w
        ++ (NOTICE, ("[+] " ++ ASRep_CName_PrincipalNameString asrep
                     ++ " has no pre auth required. Dumping hash to crack offline:"
                     ++ nl ++ hash)%string) :: rest)%list
    /\ (HashFile k = None -> rest = [] /\ sink w' = sink w).
Proof.
  intros Hreply Hu Hc.
  destruct (kdc_reply_inv _ _ _ _ _ Hreply)
    as (req & e1 & x1 & b & x2 & Hr & Hm & Hs).
  rewrite (TestUsername_sent _ _ _ _ _ _ _ _ _ _ Hr Hm Hs), Hu.
  unfold bind at 1, DumpASRepHash. rewrite Hc.
  unfold bind at 1. rewrite logf_run. cbn [ext log stdout sink kdc_sent].
  destruct (HashFile k) as [f|].
  - unfold bind, WriteString. cbn [ext log stdout sink kdc_sent].
    destruct (File_WriteString f (hash ++ nl) x2) as [[n [e|]] x3];
      cbn [snd]; [rewrite logf_run|]; unfold ret;
      cbn [ext log stdout sink kdc_sent]; rewrite <- ?app_assoc;
      do 2 eexists; (split; [reflexivity|]);
      (split; [reflexivity | intros Hn; discriminate Hn]).
  - unfold ret. exists (mkWorld x2 (log w ++ [(NOTICE,
        ("[+] " ++ ASRep_CName_PrincipalNameString asrep
         ++ " has no pre auth required. Dumping hash to crack offline:"
         ++ nl ++ hash)%string)])
        (stdout w ++ match e1 with Some e => [Error e] | None => [] end)
        (sink w) (kdc_sent w ++ [(b, Realm k)])), [].
    repeat split; reflexivity.
Qed.


(** ** TestLogin *)

(** X18.  [TestLogin] destroys its client on the way out.  With a client
    that is not configured it does not call [Login]: it returns [false]
    with the error of [IsConfigured], and the only thing that happened
    outside is [Destroy].  After a successful [Login], [Destroy] is the
    last thing that happened.  In both cases nothing is logged, printed,
    written to the sink or handed to [SendToKDC]. *)
Theorem TestLogin_destroys
    (k : KerbruteSession) (username password : string) (w : World) :
  let cl := kclient_NewWithPassword username (Realm k) password (Config k)
              [DisablePAFXFAST true; AssumePreAuthentication true] in
  (fst (Client_IsConfigured cl) = false ->
   TestLogin k username password w
   = Ret ((false, snd (Client_IsConfigured cl)),
          set_ext w (Client_Destroy cl (ext w))))
  /\ (forall x, fst (Client_IsConfigured cl) = true ->
       Client_Login cl (ext w) = (None, x) ->
       TestLogin k username password w
       = Ret ((true, None), set_ext w (Client_Destroy cl x))).
Proof.
  intros cl. unfold TestLogin, defer, bind, call. fold cl.
  destruct (Client_IsConfigured cl) as [ok ierr]; cbn [fst snd]. split.
  - intros ->. reflexivity.
  - intros x -> Hl. cbn [negb]. rewrite Hl. reflexivity.
Qed.

End ProbeProperties.

(** * The further properties on the test doubles *)

(** A session with a hash file and without downgrade. *)
Lemma NewKerbruteSession_fields_witness :
  NewKerbruteSession Cases.with_file Mock.w0
  = Ret ((Some Cases.with_file_session, None), Cases.with_file_world)
  /\ Verbose Cases.with_file_session = false
  /\ SafeMode Cases.with_file_session = false
  /\ Logger Cases.with_file_session = util_NewLogger (Library := Mock.lib) false ""
  /\ buildKrb5Template "EXAMPLE.COM" "dc1.example.com" = Ret Cases.kdc_text
  /\ exists f, fst (opened Cases.with_file Mock.w0) = inl f
               /\ HashFile Cases.with_file_session = Some f.
Proof.
  split; [reflexivity|].
  destruct (NewKerbruteSession_fields (L := Mock.lib) Cases.with_file Mock.w0
              Cases.with_file_world Cases.with_file_session None eq_refl)
    as (Hv & Hs & Hl & Hb & _ & Hf).
  split; [exact Hv|]. split; [exact Hs|]. split; [exact Hl|].
  split; [exact Hb|]. apply Hf. discriminate.
Defined.

(** A downgraded session behind a proxy: proxy, context, downgrade. *)
Lemma NewKerbruteSession_config_witness :
  NewKerbruteSession (Cases.proxied "") Strict.w0
  = Ret ((Some (Cases.proxied_session None "secret"), None),
         Cases.proxied_world)
  /\ exists Config0,
       Strict.NewFromString Cases.dns_text = inl Config0
       /\ Config (Cases.proxied_session None "secret")
          = set_DefaultTktEnctypeIDs (L := Strict.lib)
              (Strict.WithContext
                 (Strict.EnableSocks5 Config0 "127.0.0.1:1080" "proxyuser"
                    "secret"))
              [23%Z].
Proof.
  split; [reflexivity|].
  destruct (NewKerbruteSession_config (L := Strict.lib) (Cases.proxied "")
              Strict.w0 Cases.proxied_world
              (Cases.proxied_session None "secret") None eq_refl)
    as (Config0 & Hp & Hc & _).
  exists Config0. split; [exact Hp|exact Hc].
Defined.

(** A realm with an ampersand renders to a text the strict parser
    refuses. *)
Lemma NewKerbruteSession_parse_panic_witness :
  NewKerbruteSession Cases.ampersand Strict.w0 = Panic "invalid krb5 config".
Proof.
  apply (NewKerbruteSession_parse_panic (L := Strict.lib) Cases.ampersand
           Strict.w0
           ("[libdefaults]" ++ nl ++ "dns_lookup_kdc = true" ++ nl
            ++ "default_realm = R&amp;D.EXAMPLE.COM" ++ nl)
           (plainError "invalid krb5 config")).
  - discriminate.
  - intros H. elim H. reflexivity.
  - reflexivity.
  - reflexivity.
Defined.

(** A hash file under a directory that does not exist. *)
Lemma NewKerbruteSession_open_failure_witness :
  NewKerbruteSession Cases.no_directory Mock.w0
  = Ret ((None,
          Some (plainError
                  "open /nonexistent/hashes: no such file or directory")),
         @mkWorld Mock.lib 1 [] [] [] []).
Proof.
  apply (NewKerbruteSession_open_failure (L := Mock.lib) Cases.no_directory
           Mock.w0
           (plainError "open /nonexistent/hashes: no such file or directory"));
    [discriminate | discriminate | reflexivity].
Defined.

(** A construction with hash file, proxy and downgrade. *)
Lemma NewKerbruteSession_only_logs_witness :
  NewKerbruteSession (Cases.proxied Mock.hashes) Strict.w0
  = Ret ((Some (Cases.proxied_session (Some Mock.hashes) "secret"), None),
         Cases.proxied_file_world)
  /\ (exists added, log Cases.proxied_file_world = added)
  /\ stdout Cases.proxied_file_world = []
  /\ sink Cases.proxied_file_world = []
  /\ kdc_sent Cases.proxied_file_world = [].
Proof.
  split; [reflexivity|].
  exact (NewKerbruteSession_only_logs (L := Strict.lib)
           (Cases.proxied Mock.hashes) Strict.w0 Cases.proxied_file_world
           (Some (Cases.proxied_session (Some Mock.hashes) "secret"), None)
           eq_refl).
Defined.

(** Two proxy passwords give two configurations and one log. *)
Lemma NewKerbruteSession_log_ignores_password_witness :
  NewKerbruteSession (with_Socks5Password (Cases.proxied "") "correct horse")
    Strict.w0
  = Ret ((Some (Cases.proxied_session None "correct horse"), None),
         Cases.proxied_world)
  /\ NewKerbruteSession
       (with_Socks5Password (Cases.proxied "") "battery staple") Strict.w0
     = Ret ((Some (Cases.proxied_session None "battery staple"), None),
            Cases.proxied_world)
  /\ log Cases.proxied_world = log Cases.proxied_world
  /\ stdout Cases.proxied_world = stdout Cases.proxied_world
  /\ sink Cases.proxied_world = sink Cases.proxied_world.
Proof.
  split; [reflexivity|]. split; [reflexivity|].
  apply (NewKerbruteSession_log_ignores_password (L := Strict.lib)
           (Cases.proxied "") "correct horse" "battery staple" Strict.w0
           Cases.proxied_world Cases.proxied_world
           (Some (Cases.proxied_session None "correct horse"), None)
           (Some (Cases.proxied_session None "battery staple"), None));
    [discriminate | discriminate | reflexivity | reflexivity].
Defined.

(** A hash file without downgrade: the warning is in the log. *)
Lemma NewKerbruteSession_warning_witness :
  NewKerbruteSession Cases.with_file Mock.w0
  = Ret ((Some Cases.with_file_session, None), Cases.with_file_world)
  /\ exists added msg,
       log Cases.with_file_world = added /\ In (WARNING, msg) added.
Proof.
  split; [reflexivity|].
  destruct (NewKerbruteSession_warning (L := Mock.lib) Cases.with_file Mock.w0
              Cases.with_file_world Cases.with_file_session None eq_refl)
    as (added & Hl & Hiff).
  destruct (proj2 Hiff) as (msg & Hin).
  { split; [discriminate|reflexivity]. }
  exists added, msg. split; [exact Hl|exact Hin].
Defined.

(** The lookup for [EXAMPLE.COM], after the hash file was opened. *)
Lemma NewKerbruteSession_kdc_lookup_witness :
  NewKerbruteSession Cases.downgraded Mock.w0
  = Ret ((Some Cases.downgraded_session, None), Cases.downgraded_world)
  /\ exists n ge,
       Mock.GetKDCs (mkConfig (mkLibDefaults [23%Z]) Cases.dns_text)
         "EXAMPLE.COM" false 1
       = ((n, Cases.kdcs, ge), 2)
       /\ ((@None error) = None <-> ge = None).
Proof.
  split; [reflexivity|].
  exact (NewKerbruteSession_kdc_lookup (L := Mock.lib) Cases.downgraded
           Mock.w0 Cases.downgraded_world Cases.downgraded_session None
           eq_refl).
Defined.

(** The scenario of the specification with a domain controller. *)
Lemma buildKrb5Template_plain_witness :
  exists text,
    buildKrb5Template "EXAMPLE.COM" "dc1.example.com" = Ret text
    /\ Contains text ("default_realm = " ++ "EXAMPLE.COM" ++ nl) = true
    /\ Contains text (nl ++ "EXAMPLE.COM" ++ " = {" ++ nl) = true
    /\ Contains text (tab ++ "kdc = " ++ "dc1.example.com" ++ nl) = true
    /\ Contains text (tab ++ "admin_server = " ++ "dc1.example.com" ++ nl)
       = true.
Proof.
  apply (buildKrb5Template_plain "EXAMPLE.COM" "dc1.example.com").
  - cbn. repeat split.
  - cbn. repeat split.
  - discriminate.
Defined.

(** A realm and a domain controller with such bytes. *)
Lemma buildKrb5Template_bytes_witness :
  buildKrb5Template "<R&D>" "dc'1+2"
  = Ret ("[libdefaults]" ++ nl ++ "default_realm = &lt;R&amp;D&gt;" ++ nl
         ++ "[realms]" ++ nl ++ "&lt;R&amp;D&gt; = {" ++ nl
         ++ tab ++ "kdc = dc&#39;1&#43;2" ++ nl
         ++ tab ++ "admin_server = dc&#39;1&#43;2" ++ nl ++ "}" ++ nl)
  /\ all_bytes (fun c => negb (escaped_away c))
       ("[libdefaults]" ++ nl ++ "default_realm = &lt;R&amp;D&gt;" ++ nl
        ++ "[realms]" ++ nl ++ "&lt;R&amp;D&gt; = {" ++ nl
        ++ tab ++ "kdc = dc&#39;1&#43;2" ++ nl
        ++ tab ++ "admin_server = dc&#39;1&#43;2" ++ nl ++ "}" ++ nl)
     = true.
Proof.
  split; [reflexivity|].
  apply (buildKrb5Template_bytes "<R&D>" "dc'1+2"). reflexivity.
Defined.

(** [alice] is reported valid because the KDC asks for
    pre-authentication. *)
Lemma TestUsername_true_only_if_witness :
  TestUsername Cases.plain_session "alice" Mock.w0
  = Ret ((true, None), Cases.sent_world "alice")
  /\ exists rb,
       (exists e, kdc_reply Cases.plain_session "alice" Mock.w0
                  = Some (rb, Some (KRBError e))
                  /\ ErrorCode e = KDC_ERR_PREAUTH_REQUIRED)
       \/ (kdc_reply Cases.plain_session "alice" Mock.w0 = Some (rb, None)
           /\ snd (Mock.Unmarshal rb) = None).
Proof.
  split; [reflexivity|].
  exact (proj2 (TestUsername_true_only_if (L := Mock.lib) Cases.plain_session
                  "alice" Mock.w0 (Cases.sent_world "alice") None eq_refl)).
Defined.

(** One request for [mallory]. *)
Lemma TestUsername_one_request_witness :
  TestUsername Cases.plain_session "mallory" Mock.w0
  = Ret ((false, Some Mock.unknown), Cases.sent_world "mallory")
  /\ exists b,
       kdc_sent (Cases.sent_world "mallory") = [(b, "EXAMPLE.COM")].
Proof.
  split; [reflexivity|].
  destruct (TestUsername_one_request (L := Mock.lib) Cases.plain_session
              "mallory" Mock.w0 (Cases.sent_world "mallory")
              (false, Some Mock.unknown) eq_refl)
    as [(Hn & _) | (_ & b & Hk)]; [discriminate Hn|].
  exists b. exact Hk.
Defined.

(** An unknown principal: nothing in the sink, nothing in the log. *)
Lemma TestUsername_sink_and_log_witness :
  TestUsername Cases.sink_session "mallory" Mock.w0
  = Ret ((false, Some Mock.unknown), Cases.sent_world "mallory")
  /\ sink (Cases.sent_world "mallory") = []
  /\ log (Cases.sent_world "mallory") = [].
Proof.
  split; [reflexivity|].
  apply (proj2 (TestUsername_sink_and_log (L := Mock.lib) Cases.sink_session
                  "mallory" Mock.w0 (Cases.sent_world "mallory")
                  (false, Some Mock.unknown) eq_refl)).
  reflexivity.
Defined.

(** The hash of [bob] without a sink. *)
Lemma TestUsername_hash_logged_witness :
  exists w' rest,
    TestUsername Cases.plain_session "bob" Mock.w0 = Ret ((true, None), w')
    /\ log w' =
       (log Mock.w0
        ++ (NOTICE, ("[+] " ++ "bob"
                     ++ " has no pre auth required. Dumping hash to crack offline:"
                     ++ nl ++ Mock.bob_hash)%string) :: rest)%list
    /\ (HashFile Cases.plain_session = None ->
        rest = [] /\ sink w' = sink Mock.w0).
Proof.
  apply (TestUsername_hash_logged (L := Mock.lib) Cases.plain_session
           "bob" Mock.w0 "asrep:bob" "bob" Mock.bob_hash);
    reflexivity.
Defined.


(** A login without a user name, and the login of [alice]. *)
Lemma TestLogin_destroys_witness :
  TestLogin (Strict.session None [] false) "" "hunter2" Strict.w0
  = Ret ((false, Some (plainError "client does not have a username")),
         @mkWorld Strict.lib 100 [] [] [] [])
  /\ TestLogin (Strict.session None [] false) "alice" "hunter2" Strict.w0
     = Ret ((true, None), @mkWorld Strict.lib 101 [] [] [] []).
Proof.
  split.
  - apply (proj1 (TestLogin_destroys (L := Strict.lib)
                    (Strict.session None [] false) "" "hunter2" Strict.w0)).
    reflexivity.
  - apply (proj2 (TestLogin_destroys (L := Strict.lib)
                    (Strict.session None [] false) "alice" "hunter2"
                    Strict.w0) 1); reflexivity.
Defined.
